(** * Free-throw haptic trainer: the control program of [main.cpp]

    A shallow embedding of the session loop of [src/main.cpp] together with
    the declarations of [src/haptic.h] and [src/sensors.h] it relies on.

    Conventions.
    - [double] is IEEE binary64, taken as Rocq's primitive [float]; every
      arithmetic operation and comparison of the source is the corresponding
      primitive operation, so concrete runs evaluate bit for bit.
    - [int] and [unsigned long] values are integers of [Z]; the wrap-around
      of the 32-bit and 64-bit machine types is written out where the source
      does arithmetic on them.
    - The file-scope globals and the function-local [static]s of [main.cpp]
      are the fields of one record [Sys], threaded through a small state
      monad.
    - [rand()], [millis()] and the indeterminate contents of locals are the
      environment: two oracle streams indexed by the number of calls made so
      far, and [None] for a field that is never assigned.
    - [std::cout], [sleep_for] and the haptic entry points (declared in
      [haptic.h], without a body in the repository) are recorded, in order,
      in the [trace]. *)

From Stdlib Require Import ZArith String List Bool Lia.
From Stdlib Require Import Floats.PrimFloat.
From Stdlib Require Numbers.Cyclic.Int63.Uint63.
From Stdlib Require Floats.FloatAxioms.
Import ListNotations.

#[local] Set Warnings "-inexact-float".
#[local] Open Scope Z_scope.

(** ** Machine numbers *)

Definition double := float.

(** Conversion [int -> double]; exact for every 32-bit value. *)
Definition double_of_int (z : Z) : double :=
  if z <? 0 then PrimFloat.opp (PrimFloat.of_uint63 (Uint63.of_Z (- z)))
  else PrimFloat.of_uint63 (Uint63.of_Z z).

(** Two's complement wrap-around of a 32-bit [int]. *)
Definition wrap_int (z : Z) : Z := (z + 2 ^ 31) mod 2 ^ 32 - 2 ^ 31.

(** [unsigned long] is 64 bits wide (LP64). *)
Definition ULONG_MODULUS : Z := 2 ^ 64.
Definition wrap_ulong (z : Z) : Z := z mod ULONG_MODULUS.
Definition ulong_sub (a b : Z) : Z := wrap_ulong (a - b).

(** ** [haptic.h] *)

Module Haptic.

Definition HAPTIC_1_PIN : Z := 25.  (* Upper arm *)
Definition HAPTIC_2_PIN : Z := 26.  (* Lower arm *)
Definition HAPTIC_3_PIN : Z := 27.  (* Wrist *)

Inductive HapticPattern :=
| NONE | SINGLE_PULSE | DOUBLE_PULSE | TRIPLE_PULSE | CONTINUOUS
| INCREASING | DECREASING | ALTERNATING | WAVE.

Inductive FeedbackIntensity := LIGHT | MEDIUM | STRONG.

(** The enumerators' values: [LIGHT = 64, MEDIUM = 128, STRONG = 255]. *)
Definition intensity_value (i : FeedbackIntensity) : Z :=
  match i with LIGHT => 64 | MEDIUM => 128 | STRONG => 255 end.

Inductive FeedbackZone := UPPER_ARM | LOWER_ARM | WRIST | ALL_ZONES.

Definition zone_value (z : FeedbackZone) : Z :=
  match z with UPPER_ARM => 1 | LOWER_ARM => 2 | WRIST => 3 | ALL_ZONES => 0 end.

Record HapticMotor := mkHapticMotor {
  pin : Z;
  currentIntensity : Z;
  isActive : bool;
  startTime : Z;
  duration : Z;
  pattern : HapticPattern
}.


Definition HapticMotor_of_pin (p : Z) : HapticMotor :=
  {| pin := p; currentIntensity := 0; isActive := false;
     startTime := 0; duration := 0; pattern := NONE |}.

End Haptic.

(** ** [sensors.h]: configuration constants *)

Module Sensors.

Definition SAMPLE_RATE : Z := 100.
Definition CALIBRATION_SAMPLES : Z := 10.
Definition MOTION_THRESHOLD : Z := 5000.
Definition SHOT_DETECTION_THRESHOLD : Z := 15000.
Definition MOTION_TIMEOUT : Z := 1000.

End Sensors.

(** ** [main.cpp]: data *)

Import Haptic.

Inductive SystemState := STANDBY | CALIBRATION | TRAINING | DATA_REVIEW.

(** [analyzeShotForm] declares its result without an initialiser and never
    assigns [bodyBalance], [wasSuccessful] and [shotDuration]: those fields
    hold an indeterminate value, rendered as [None]. *)
Record FreeThrowData := mkFreeThrowData {
  elbowAngle : double;
  wristAngle : double;
  releaseTiming : double;
  followThrough : double;
  bodyBalance : option double;
  wasSuccessful : option bool;
  shotDuration : option Z;
  peakAcceleration : double
}.

(** The [CalibrationData] of [main.cpp], the type of the global
    [calibrationData] every function body works on. (The record of the same
    name in [sensors.h] holds peak acceleration, duration and a trajectory;
    no function body reads or writes it.) *)
Record CalibrationData := mkCalibrationData {
  avgElbowAngle : double;
  avgWristAngle : double;
  avgReleaseTiming : double;
  avgFollowThrough : double;
  avgBodyBalance : double;
  stdDevElbow : double;
  stdDevWrist : double;
  stdDevTiming : double;
  isValid : bool
}.

(** Assignment to one field, for the fields the program assigns. *)
Definition set_avgElbowAngle (v : double) (c : CalibrationData) : CalibrationData :=
  {| avgElbowAngle := v; avgWristAngle := avgWristAngle c; avgReleaseTiming := avgReleaseTiming
     c; avgFollowThrough := avgFollowThrough c; avgBodyBalance := avgBodyBalance c; stdDevElbow
     := stdDevElbow c; stdDevWrist := stdDevWrist c; stdDevTiming := stdDevTiming c; isValid :=
     isValid c |}.
Definition set_avgWristAngle (v : double) (c : CalibrationData) : CalibrationData :=
  {| avgElbowAngle := avgElbowAngle c; avgWristAngle := v; avgReleaseTiming := avgReleaseTiming
     c; avgFollowThrough := avgFollowThrough c; avgBodyBalance := avgBodyBalance c; stdDevElbow
     := stdDevElbow c; stdDevWrist := stdDevWrist c; stdDevTiming := stdDevTiming c; isValid :=
     isValid c |}.
Definition set_avgReleaseTiming (v : double) (c : CalibrationData) : CalibrationData :=
  {| avgElbowAngle := avgElbowAngle c; avgWristAngle := avgWristAngle c; avgReleaseTiming := v;
     avgFollowThrough := avgFollowThrough c; avgBodyBalance := avgBodyBalance c; stdDevElbow :=
     stdDevElbow c; stdDevWrist := stdDevWrist c; stdDevTiming := stdDevTiming c; isValid :=
     isValid c |}.
Definition set_isValid (v : bool) (c : CalibrationData) : CalibrationData :=
  {| avgElbowAngle := avgElbowAngle c; avgWristAngle := avgWristAngle c; avgReleaseTiming :=
     avgReleaseTiming c; avgFollowThrough := avgFollowThrough c; avgBodyBalance :=
     avgBodyBalance c; stdDevElbow := stdDevElbow c; stdDevWrist := stdDevWrist c; stdDevTiming
     := stdDevTiming c; isValid := v |}.

Definition ELBOW_ANGLE_TOLERANCE : double := 5.0%float.
Definition WRIST_ANGLE_TOLERANCE : double := 3.0%float.
Definition RELEASE_TIMING_TOLERANCE : double := 0.1%float.
Definition SHOT_DURATION_MIN : double := 1.2%float.
Definition SHOT_DURATION_MAX : double := 1.8%float.

(** ** Observable effects *)

Inductive OutItem :=
| Str (s : string)
| Int (z : Z)
| Dbl (d : double).

Inductive Effect :=
| Cout (line : list OutItem)
| SleepFor (ms : Z)
| TriggerHapticFeedback (pin intensity duration : Z)
| TriggerPatternFeedback (zone : FeedbackZone) (pattern : HapticPattern)
    (intensity : FeedbackIntensity).

Definition is_haptic (e : Effect) : bool :=
  match e with
  | TriggerHapticFeedback _ _ _ | TriggerPatternFeedback _ _ _ => true
  | Cout _ | SleepFor _ => false
  end.

(** The haptic commands issued so far, oldest first. *)
Definition haptic_calls (t : list Effect) : list Effect := filter is_haptic t.

(** ** Program state *)

Record Sys := mkSys {
  (* globals *)
  currentState : SystemState;
  calibrationData : CalibrationData;
  isCalibrated : bool;
  shotCount : Z;
  lastShotTime : Z;
  (* function-local statics *)
  lastButtonCheck : Z;        (* checkButtons *)
  lastBlink : Z;              (* handleStandby *)
  lastPrint : Z;              (* handleStandby *)
  calibrationShots : Z;       (* handleCalibration *)
  elbowSum : double;          (* handleCalibration *)
  wristSum : double;          (* handleCalibration *)
  timingSum : double;         (* handleCalibration *)
  lastAccel : double;         (* detectShotMotion *)
  lastBatteryCheck : Z;       (* monitorBattery *)
  (* environment *)
  rand_src : nat -> Z;        (* the k-th result of rand() *)
  rand_calls : nat;
  clock_src : nat -> Z;       (* the k-th reading of the steady clock, in ms *)
  clock_reads : nat;
  trace : list Effect
}.

(** Assignment to one global, static or counter of the environment. *)
Definition set_currentState (v : SystemState) (s : Sys) : Sys :=
  {| currentState := v; calibrationData := calibrationData s; isCalibrated := isCalibrated s;
     shotCount := shotCount s; lastShotTime := lastShotTime s; lastButtonCheck :=
     lastButtonCheck s; lastBlink := lastBlink s; lastPrint := lastPrint s; calibrationShots :=
     calibrationShots s; elbowSum := elbowSum s; wristSum := wristSum s; timingSum := timingSum
     s; lastAccel := lastAccel s; lastBatteryCheck := lastBatteryCheck s; rand_src := rand_src
     s; rand_calls := rand_calls s; clock_src := clock_src s; clock_reads := clock_reads s;
     trace := trace s |}.
Definition set_calibrationData (v : CalibrationData) (s : Sys) : Sys :=
  {| currentState := currentState s; calibrationData := v; isCalibrated := isCalibrated s;
     shotCount := shotCount s; lastShotTime := lastShotTime s; lastButtonCheck :=
     lastButtonCheck s; lastBlink := lastBlink s; lastPrint := lastPrint s; calibrationShots :=
     calibrationShots s; elbowSum := elbowSum s; wristSum := wristSum s; timingSum := timingSum
     s; lastAccel := lastAccel s; lastBatteryCheck := lastBatteryCheck s; rand_src := rand_src
     s; rand_calls := rand_calls s; clock_src := clock_src s; clock_reads := clock_reads s;
     trace := trace s |}.
Definition set_isCalibrated (v : bool) (s : Sys) : Sys :=
  {| currentState := currentState s; calibrationData := calibrationData s; isCalibrated := v;
     shotCount := shotCount s; lastShotTime := lastShotTime s; lastButtonCheck :=
     lastButtonCheck s; lastBlink := lastBlink s; lastPrint := lastPrint s; calibrationShots :=
     calibrationShots s; elbowSum := elbowSum s; wristSum := wristSum s; timingSum := timingSum
     s; lastAccel := lastAccel s; lastBatteryCheck := lastBatteryCheck s; rand_src := rand_src
     s; rand_calls := rand_calls s; clock_src := clock_src s; clock_reads := clock_reads s;
     trace := trace s |}.
Definition set_shotCount (v : Z) (s : Sys) : Sys :=
  {| currentState := currentState s; calibrationData := calibrationData s; isCalibrated :=
     isCalibrated s; shotCount := v; lastShotTime := lastShotTime s; lastButtonCheck :=
     lastButtonCheck s; lastBlink := lastBlink s; lastPrint := lastPrint s; calibrationShots :=
     calibrationShots s; elbowSum := elbowSum s; wristSum := wristSum s; timingSum := timingSum
     s; lastAccel := lastAccel s; lastBatteryCheck := lastBatteryCheck s; rand_src := rand_src
     s; rand_calls := rand_calls s; clock_src := clock_src s; clock_reads := clock_reads s;
     trace := trace s |}.
Definition set_lastShotTime (v : Z) (s : Sys) : Sys :=
  {| currentState := currentState s; calibrationData := calibrationData s; isCalibrated :=
     isCalibrated s; shotCount := shotCount s; lastShotTime := v; lastButtonCheck :=
     lastButtonCheck s; lastBlink := lastBlink s; lastPrint := lastPrint s; calibrationShots :=
     calibrationShots s; elbowSum := elbowSum s; wristSum := wristSum s; timingSum := timingSum
     s; lastAccel := lastAccel s; lastBatteryCheck := lastBatteryCheck s; rand_src := rand_src
     s; rand_calls := rand_calls s; clock_src := clock_src s; clock_reads := clock_reads s;
     trace := trace s |}.
Definition set_lastButtonCheck (v : Z) (s : Sys) : Sys :=
  {| currentState := currentState s; calibrationData := calibrationData s; isCalibrated :=
     isCalibrated s; shotCount := shotCount s; lastShotTime := lastShotTime s; lastButtonCheck
     := v; lastBlink := lastBlink s; lastPrint := lastPrint s; calibrationShots :=
     calibrationShots s; elbowSum := elbowSum s; wristSum := wristSum s; timingSum := timingSum
     s; lastAccel := lastAccel s; lastBatteryCheck := lastBatteryCheck s; rand_src := rand_src
     s; rand_calls := rand_calls s; clock_src := clock_src s; clock_reads := clock_reads s;
     trace := trace s |}.
Definition set_lastBlink (v : Z) (s : Sys) : Sys :=
  {| currentState := currentState s; calibrationData := calibrationData s; isCalibrated :=
     isCalibrated s; shotCount := shotCount s; lastShotTime := lastShotTime s; lastButtonCheck
     := lastButtonCheck s; lastBlink := v; lastPrint := lastPrint s; calibrationShots :=
     calibrationShots s; elbowSum := elbowSum s; wristSum := wristSum s; timingSum := timingSum
     s; lastAccel := lastAccel s; lastBatteryCheck := lastBatteryCheck s; rand_src := rand_src
     s; rand_calls := rand_calls s; clock_src := clock_src s; clock_reads := clock_reads s;
     trace := trace s |}.
Definition set_lastPrint (v : Z) (s : Sys) : Sys :=
  {| currentState := currentState s; calibrationData := calibrationData s; isCalibrated :=
     isCalibrated s; shotCount := shotCount s; lastShotTime := lastShotTime s; lastButtonCheck
     := lastButtonCheck s; lastBlink := lastBlink s; lastPrint := v; calibrationShots :=
     calibrationShots s; elbowSum := elbowSum s; wristSum := wristSum s; timingSum := timingSum
     s; lastAccel := lastAccel s; lastBatteryCheck := lastBatteryCheck s; rand_src := rand_src
     s; rand_calls := rand_calls s; clock_src := clock_src s; clock_reads := clock_reads s;
     trace := trace s |}.
Definition set_calibrationShots (v : Z) (s : Sys) : Sys :=
  {| currentState := currentState s; calibrationData := calibrationData s; isCalibrated :=
     isCalibrated s; shotCount := shotCount s; lastShotTime := lastShotTime s; lastButtonCheck
     := lastButtonCheck s; lastBlink := lastBlink s; lastPrint := lastPrint s; calibrationShots
     := v; elbowSum := elbowSum s; wristSum := wristSum s; timingSum := timingSum s; lastAccel
     := lastAccel s; lastBatteryCheck := lastBatteryCheck s; rand_src := rand_src s; rand_calls
     := rand_calls s; clock_src := clock_src s; clock_reads := clock_reads s; trace := trace s
     |}.
Definition set_elbowSum (v : double) (s : Sys) : Sys :=
  {| currentState := currentState s; calibrationData := calibrationData s; isCalibrated :=
     isCalibrated s; shotCount := shotCount s; lastShotTime := lastShotTime s; lastButtonCheck
     := lastButtonCheck s; lastBlink := lastBlink s; lastPrint := lastPrint s; calibrationShots
     := calibrationShots s; elbowSum := v; wristSum := wristSum s; timingSum := timingSum s;
     lastAccel := lastAccel s; lastBatteryCheck := lastBatteryCheck s; rand_src := rand_src s;
     rand_calls := rand_calls s; clock_src := clock_src s; clock_reads := clock_reads s; trace
     := trace s |}.
Definition set_wristSum (v : double) (s : Sys) : Sys :=
  {| currentState := currentState s; calibrationData := calibrationData s; isCalibrated :=
     isCalibrated s; shotCount := shotCount s; lastShotTime := lastShotTime s; lastButtonCheck
     := lastButtonCheck s; lastBlink := lastBlink s; lastPrint := lastPrint s; calibrationShots
     := calibrationShots s; elbowSum := elbowSum s; wristSum := v; timingSum := timingSum s;
     lastAccel := lastAccel s; lastBatteryCheck := lastBatteryCheck s; rand_src := rand_src s;
     rand_calls := rand_calls s; clock_src := clock_src s; clock_reads := clock_reads s; trace
     := trace s |}.
Definition set_timingSum (v : double) (s : Sys) : Sys :=
  {| currentState := currentState s; calibrationData := calibrationData s; isCalibrated :=
     isCalibrated s; shotCount := shotCount s; lastShotTime := lastShotTime s; lastButtonCheck
     := lastButtonCheck s; lastBlink := lastBlink s; lastPrint := lastPrint s; calibrationShots
     := calibrationShots s; elbowSum := elbowSum s; wristSum := wristSum s; timingSum := v;
     lastAccel := lastAccel s; lastBatteryCheck := lastBatteryCheck s; rand_src := rand_src s;
     rand_calls := rand_calls s; clock_src := clock_src s; clock_reads := clock_reads s; trace
     := trace s |}.
Definition set_lastAccel (v : double) (s : Sys) : Sys :=
  {| currentState := currentState s; calibrationData := calibrationData s; isCalibrated :=
     isCalibrated s; shotCount := shotCount s; lastShotTime := lastShotTime s; lastButtonCheck
     := lastButtonCheck s; lastBlink := lastBlink s; lastPrint := lastPrint s; calibrationShots
     := calibrationShots s; elbowSum := elbowSum s; wristSum := wristSum s; timingSum :=
     timingSum s; lastAccel := v; lastBatteryCheck := lastBatteryCheck s; rand_src := rand_src
     s; rand_calls := rand_calls s; clock_src := clock_src s; clock_reads := clock_reads s;
     trace := trace s |}.
Definition set_lastBatteryCheck (v : Z) (s : Sys) : Sys :=
  {| currentState := currentState s; calibrationData := calibrationData s; isCalibrated :=
     isCalibrated s; shotCount := shotCount s; lastShotTime := lastShotTime s; lastButtonCheck
     := lastButtonCheck s; lastBlink := lastBlink s; lastPrint := lastPrint s; calibrationShots
     := calibrationShots s; elbowSum := elbowSum s; wristSum := wristSum s; timingSum :=
     timingSum s; lastAccel := lastAccel s; lastBatteryCheck := v; rand_src := rand_src s;
     rand_calls := rand_calls s; clock_src := clock_src s; clock_reads := clock_reads s; trace
     := trace s |}.
Definition set_rand_calls (v : nat) (s : Sys) : Sys :=
  {| currentState := currentState s; calibrationData := calibrationData s; isCalibrated :=
     isCalibrated s; shotCount := shotCount s; lastShotTime := lastShotTime s; lastButtonCheck
     := lastButtonCheck s; lastBlink := lastBlink s; lastPrint := lastPrint s; calibrationShots
     := calibrationShots s; elbowSum := elbowSum s; wristSum := wristSum s; timingSum :=
     timingSum s; lastAccel := lastAccel s; lastBatteryCheck := lastBatteryCheck s; rand_src :=
     rand_src s; rand_calls := v; clock_src := clock_src s; clock_reads := clock_reads s; trace
     := trace s |}.
Definition set_clock_reads (v : nat) (s : Sys) : Sys :=
  {| currentState := currentState s; calibrationData := calibrationData s; isCalibrated :=
     isCalibrated s; shotCount := shotCount s; lastShotTime := lastShotTime s; lastButtonCheck
     := lastButtonCheck s; lastBlink := lastBlink s; lastPrint := lastPrint s; calibrationShots
     := calibrationShots s; elbowSum := elbowSum s; wristSum := wristSum s; timingSum :=
     timingSum s; lastAccel := lastAccel s; lastBatteryCheck := lastBatteryCheck s; rand_src :=
     rand_src s; rand_calls := rand_calls s; clock_src := clock_src s; clock_reads := v; trace
     := trace s |}.
Definition set_trace (v : list Effect) (s : Sys) : Sys :=
  {| currentState := currentState s; calibrationData := calibrationData s; isCalibrated :=
     isCalibrated s; shotCount := shotCount s; lastShotTime := lastShotTime s; lastButtonCheck
     := lastButtonCheck s; lastBlink := lastBlink s; lastPrint := lastPrint s; calibrationShots
     := calibrationShots s; elbowSum := elbowSum s; wristSum := wristSum s; timingSum :=
     timingSum s; lastAccel := lastAccel s; lastBatteryCheck := lastBatteryCheck s; rand_src :=
     rand_src s; rand_calls := rand_calls s; clock_src := clock_src s; clock_reads :=
     clock_reads s; trace := v |}.

Definition zero_calibration : CalibrationData :=
  {| avgElbowAngle := 0%float; avgWristAngle := 0%float;
     avgReleaseTiming := 0%float; avgFollowThrough := 0%float;
     avgBodyBalance := 0%float; stdDevElbow := 0%float;
     stdDevWrist := 0%float; stdDevTiming := 0%float; isValid := false |}.

(** The state at program start: globals and statics hold their initialisers
    (zero where none is written), nothing has been drawn or printed. *)
Definition initial_state (rnd clk : nat -> Z) : Sys :=
  {| currentState := STANDBY; calibrationData := zero_calibration;
     isCalibrated := false; shotCount := 0; lastShotTime := 0;
     lastButtonCheck := 0; lastBlink := 0; lastPrint := 0;
     calibrationShots := 0; elbowSum := 0%float; wristSum := 0%float;
     timingSum := 0%float; lastAccel := 0%float; lastBatteryCheck := 0;
     rand_src := rnd; rand_calls := 0%nat; clock_src := clk;
     clock_reads := 0%nat; trace := [] |}.

(** ** The state monad of the control program *)

Definition M (A : Type) : Type := Sys -> A * Sys.

Definition ret {A} (a : A) : M A := fun s => (a, s).

Definition bind {A B} (m : M A) (k : A -> M B) : M B :=
  fun s => let (a, s') := m s in k a s'.

Notation "x <- m ;; k" := (bind m (fun x => k))
  (at level 61, m at next level, right associativity).
Notation "m ;; k" := (bind m (fun _ => k))
  (at level 61, right associativity).

Definition gets {A} (f : Sys -> A) : M A := fun s => (f s, s).
Definition modify (f : Sys -> Sys) : M unit := fun s => (tt, f s).
Definition when (b : bool) (m : M unit) : M unit := if b then m else ret tt.

Definition exec {A} (m : M A) (s : Sys) : Sys := snd (m s).
Definition eval {A} (m : M A) (s : Sys) : A := fst (m s).

(** *** Environment and effects *)

(** [rand()]: the next value of the generator. *)
Definition rand : M Z :=
  fun s => (rand_src s (rand_calls s), set_rand_calls (S (rand_calls s)) s).

(** [millis()]: the next clock reading, converted to [unsigned long]. *)
Definition millis : M Z :=
  fun s => (wrap_ulong (clock_src s (clock_reads s)),
            set_clock_reads (S (clock_reads s)) s).

Definition emit (e : Effect) : M unit :=
  modify (fun s => set_trace (trace s ++ [e]) s).

Definition cout (line : list OutItem) : M unit := emit (Cout line).
Definition sleep_for (ms : Z) : M unit := emit (SleepFor ms).

Definition triggerHapticFeedback (pin intensity duration : Z) : M unit :=
  emit (TriggerHapticFeedback pin intensity duration).

Definition triggerPatternFeedback (zone : FeedbackZone) (pattern : HapticPattern)
  (intensity : FeedbackIntensity) : M unit :=
  emit (TriggerPatternFeedback zone pattern intensity).

(** ** [main.cpp]: functions *)

Definition checkButtons : M unit :=
  currentTime <- millis ;;
  last <- gets lastButtonCheck ;;
  if ulong_sub currentTime last <? 50 then ret tt  (* Debounce *)
  else modify (set_lastButtonCheck currentTime).

Definition readAllSensors : M unit := ret tt.

(** The operands of one [<<] chain are evaluated left to right. *)
Definition printSensorData : M unit :=
  x <- rand ;; y <- rand ;; z <- rand ;;
  cout [Str "BNO055 - X: "; Int (Z.rem x 360); Str " Y: "; Int (Z.rem y 360);
        Str " Z: "; Int (Z.rem z 360)] ;;
  ax <- rand ;; ay <- rand ;; az <- rand ;;
  cout [Str "MPU6050 - AX: "; Int (Z.rem ax 1000); Str " AY: ";
        Int (Z.rem ay 1000); Str " AZ: "; Int (Z.rem az 1000)].

Definition handleStandby : M unit :=
  currentTime <- millis ;;
  blink <- gets lastBlink ;;
  when (1000 <? ulong_sub currentTime blink)
    (cout [Str "Status: STANDBY (LED blink)"] ;;
     modify (set_lastBlink currentTime)) ;;
  readAllSensors ;;
  printed <- gets lastPrint ;;
  when (2000 <? ulong_sub currentTime printed)
    (printSensorData ;;
     modify (set_lastPrint currentTime)).

Definition detectShotMotion : M bool :=
  r <- rand ;;
  let currentAccel := (9.8 + double_of_int (Z.rem r 100) / 10.0)%float in
  last <- gets lastAccel ;;
  let motionDetected := (5.0 <? PrimFloat.abs (currentAccel - last))%float in
  modify (set_lastAccel currentAccel) ;;
  ret motionDetected.

Definition analyzeShotForm : M FreeThrowData :=
  r1 <- rand ;; r2 <- rand ;; r3 <- rand ;; r4 <- rand ;; r5 <- rand ;;
  ret {| elbowAngle := (90.0 + double_of_int (Z.rem r1 20) - double_of_int 10)%float;
         wristAngle := (45.0 + double_of_int (Z.rem r2 10) - double_of_int 5)%float;
         releaseTiming := (1.5 + double_of_int (Z.rem r3 100) / 1000.0)%float;
         followThrough := (0.8 + double_of_int (Z.rem r4 40) / 100.0)%float;
         bodyBalance := None;
         wasSuccessful := None;
         shotDuration := None;
         peakAcceleration := (15.0 + double_of_int (Z.rem r5 10))%float |}.

Definition handleCalibration : M unit :=
  cout [Str "Calibration Mode: Take 10 successful free throws"] ;;
  detected <- detectShotMotion ;;
  when detected
    (modify (fun s => set_calibrationShots (wrap_int (calibrationShots s + 1)) s) ;;
     shotData <- analyzeShotForm ;;
     modify (fun s => set_elbowSum (elbowSum s + elbowAngle shotData)%float s) ;;
     modify (fun s => set_wristSum (wristSum s + wristAngle shotData)%float s) ;;
     modify (fun s => set_timingSum (timingSum s + releaseTiming shotData)%float s) ;;
     n <- gets calibrationShots ;;
     cout [Str "Calibration shot "; Int n; Str " recorded"] ;;
     triggerHapticFeedback HAPTIC_1_PIN (intensity_value STRONG) 100 ;;
     n <- gets calibrationShots ;;
     when (10 <=? n)
       (modify (fun s => set_calibrationData
                  (set_avgElbowAngle (elbowSum s / 10.0)%float (calibrationData s)) s) ;;
        modify (fun s => set_calibrationData
                  (set_avgWristAngle (wristSum s / 10.0)%float (calibrationData s)) s) ;;
        modify (fun s => set_calibrationData
                  (set_avgReleaseTiming (timingSum s / 10.0)%float (calibrationData s)) s) ;;
        modify (fun s => set_calibrationData (set_isValid true (calibrationData s)) s) ;;
        modify (set_isCalibrated true) ;;
        cout [Str "Calibration complete!"] ;;
        avg <- gets (fun s => avgElbowAngle (calibrationData s)) ;;
        cout [Str "Average elbow angle: "; Dbl avg] ;;
        modify (set_currentState STANDBY) ;;
        modify (set_calibrationShots 0) ;;
        modify (set_timingSum 0%float) ;;
        modify (set_wristSum 0%float) ;;
        modify (set_elbowSum 0%float)) ;;
     sleep_for 2000).

Definition provideHapticFeedback (shotData : FreeThrowData) : M unit :=
  cal <- gets calibrationData ;;
  let elbowError := PrimFloat.abs (elbowAngle shotData - avgElbowAngle cal)%float in
  let wristError := PrimFloat.abs (wristAngle shotData - avgWristAngle cal)%float in
  if (ELBOW_ANGLE_TOLERANCE <? elbowError)%float then
    triggerHapticFeedback HAPTIC_1_PIN (intensity_value STRONG) 300 ;;
    cout [Str "Haptic: Elbow angle correction needed"]
  else if (WRIST_ANGLE_TOLERANCE <? wristError)%float then
    triggerHapticFeedback HAPTIC_3_PIN (intensity_value MEDIUM) 150 ;;
    cout [Str "Haptic: Wrist angle correction needed"]
  else
    triggerPatternFeedback ALL_ZONES DOUBLE_PULSE LIGHT ;;
    cout [Str "Haptic: Good form!"].

Definition handleTraining : M unit :=
  calibrated <- gets isCalibrated ;;
  if negb calibrated then
    cout [Str "Please calibrate first!"] ;;
    modify (set_currentState STANDBY)
  else
    detected <- detectShotMotion ;;
    when detected
      (shotData <- analyzeShotForm ;;
       provideHapticFeedback shotData ;;
       modify (fun s => set_shotCount (wrap_int (shotCount s + 1)) s) ;;
       now <- millis ;;
       modify (set_lastShotTime now) ;;
       cout [Str "Shot analyzed - check form feedback"]).

Definition handleDataReview : M unit :=
  cout [Str "Data Review Mode"] ;;
  n <- gets shotCount ;;
  cout [Str "Total shots: "; Int n] ;;
  calibrated <- gets isCalibrated ;;
  when calibrated
    (avg <- gets (fun s => avgElbowAngle (calibrationData s)) ;;
     cout [Str "Calibrated elbow angle: "; Dbl avg]) ;;
  sleep_for 5000 ;;
  modify (set_currentState STANDBY).

Definition monitorBattery : M unit :=
  currentTime <- millis ;;
  last <- gets lastBatteryCheck ;;
  when (30000 <? ulong_sub currentTime last)
    (r <- rand ;;
     let voltage := (3.7 + double_of_int (Z.rem r 10) / 100.0)%float in
     cout [Str "Battery voltage: "; Dbl voltage; Str "V"] ;;
     when (voltage <? 3.2)%float (cout [Str "Low battery warning!"]) ;;
     modify (set_lastBatteryCheck currentTime)).

Definition cycleSystemState : M unit :=
  st <- gets currentState ;;
  match st with
  | STANDBY =>
      modify (set_currentState TRAINING) ;; cout [Str "Switched to Training Mode"]
  | TRAINING =>
      modify (set_currentState DATA_REVIEW) ;; cout [Str "Switched to Data Review Mode"]
  | DATA_REVIEW =>
      modify (set_currentState STANDBY) ;; cout [Str "Switched to Standby Mode"]
  | CALIBRATION => ret tt  (* Can't switch out of calibration mode *)
  end.

Definition recordShotOutcome : M unit :=
  cout [Str "Shot outcome recorded"] ;;
  triggerHapticFeedback HAPTIC_2_PIN (intensity_value LIGHT) 100.

Definition loop : M unit :=
  checkButtons ;;
  st <- gets currentState ;;
  match st with
  | STANDBY => handleStandby
  | CALIBRATION => handleCalibration
  | TRAINING => handleTraining
  | DATA_REVIEW => handleDataReview
  end ;;
  monitorBattery.

(** One iteration of the [while (true)] of [main], and [n] of them. *)
Definition main_iteration : M unit := loop ;; sleep_for 10.

Fixpoint run_loop (n : nat) (s : Sys) : Sys :=
  match n with
  | O => s
  | S k => run_loop k (exec main_iteration s)
  end.

(** * Runs, observations and concrete states *)

(** ** Feedback selection *)

(** The two deviations [provideHapticFeedback] computes. *)
Definition elbowError (shot : FreeThrowData) (cal : CalibrationData) : double :=
  PrimFloat.abs (elbowAngle shot - avgElbowAngle cal)%float.

Definition wristError (shot : FreeThrowData) (cal : CalibrationData) : double :=
  PrimFloat.abs (wristAngle shot - avgWristAngle cal)%float.

(** ** Calibration runs *)

(** The part of the state a calibration run works on. *)
Definition calibration_view (s : Sys) :=
  (currentState s, calibrationData s, isCalibrated s,
   calibrationShots s, elbowSum s, wristSum s, timingSum s).

(** The shot [handleCalibration] records when entered in state [s], if its
    call of [detectShotMotion] reports one. *)
Definition calibrationShotAt (s : Sys) : option FreeThrowData :=
  let (detected, s1) := detectShotMotion s in
  if detected then Some (eval analyzeShotForm s1) else None.

(** The profile written when the tenth shot [d] arrives. *)
Definition completed_profile (s : Sys) (d : FreeThrowData) : CalibrationData :=
  set_isValid true
    (set_avgReleaseTiming ((timingSum s + releaseTiming d) / 10.0)%float
       (set_avgWristAngle ((wristSum s + wristAngle d) / 10.0)%float
          (set_avgElbowAngle ((elbowSum s + elbowAngle d) / 10.0)%float
             (calibrationData s)))).

(** The shot recorded by the loop iteration that starts in [s], if any. *)
Definition loopCalibrationShot (s : Sys) : option FreeThrowData :=
  match currentState s with
  | CALIBRATION => calibrationShotAt (exec checkButtons s)
  | _ => None
  end.

(** The calibration shots recorded during [n] iterations from [s], in order. *)
Fixpoint calibrationShotsOf (n : nat) (s : Sys) : list FreeThrowData :=
  match n with
  | O => []
  | S k =>
      match loopCalibrationShot s with
      | Some d => d :: calibrationShotsOf k (exec main_iteration s)
      | None => calibrationShotsOf k (exec main_iteration s)
      end
  end.

(** Left-to-right summation in [double], from [0.0]. *)
Definition sum_doubles (l : list double) : double :=
  fold_left PrimFloat.add l 0%float.

(** The profile a completed run leaves: three averages and the flag are
    written, every other field of the previous profile [old] is kept. *)
Definition profile_of (old : CalibrationData) (shots : list FreeThrowData) :
  CalibrationData :=
  set_isValid true
    (set_avgReleaseTiming (sum_doubles (map releaseTiming shots) / 10.0)%float
       (set_avgWristAngle (sum_doubles (map wristAngle shots) / 10.0)%float
          (set_avgElbowAngle (sum_doubles (map elbowAngle shots) / 10.0)%float old))).

(** A run in progress that has recorded the shots [prev]. *)
Definition accumulating (prev : list FreeThrowData) (s : Sys) : Prop :=
  currentState s = CALIBRATION /\
  (length prev < 10)%nat /\
  calibrationShots s = Z.of_nat (length prev) /\
  elbowSum s = sum_doubles (map elbowAngle prev) /\
  wristSum s = sum_doubles (map wristAngle prev) /\
  timingSum s = sum_doubles (map releaseTiming prev).

(** A run that has just completed, or completed earlier. *)
Definition completed (old : CalibrationData) (shots : list FreeThrowData) (s : Sys) :
  Prop :=
  length shots = 10%nat /\
  calibration_view s =
  (STANDBY, profile_of old shots, true, 0, 0%float, 0%float, 0%float).

(** A run starts with the statics of [handleCalibration] at zero: their
    initialisers, restored whenever a run completes. *)
Definition calibration_started (s : Sys) : Prop :=
  currentState s = CALIBRATION /\
  calibrationShots s = 0 /\
  elbowSum s = 0%float /\ wristSum s = 0%float /\ timingSum s = 0%float.

(** ** Averages and standard deviations *)

(** Mean and population standard deviation of a sample, in [double]
    arithmetic, as the specification words them: the sum over the count, and
    the square root of the mean squared distance to the mean. *)
Definition arithmetic_mean (l : list double) : double :=
  (sum_doubles l / double_of_int (Z.of_nat (length l)))%float.

Definition population_stddev (l : list double) : double :=
  let m := arithmetic_mean l in
  PrimFloat.sqrt (arithmetic_mean (map (fun x => ((x - m) * (x - m))%float) l)).

(** The profile the specification describes for the recorded [shots]. *)
Definition profile_has_statistics (cal : CalibrationData)
  (shots : list FreeThrowData) : Prop :=
  avgElbowAngle cal = arithmetic_mean (map elbowAngle shots) /\
  avgWristAngle cal = arithmetic_mean (map wristAngle shots) /\
  avgReleaseTiming cal = arithmetic_mean (map releaseTiming shots) /\
  stdDevElbow cal = population_stddev (map elbowAngle shots) /\
  stdDevWrist cal = population_stddev (map wristAngle shots) /\
  stdDevTiming cal = population_stddev (map releaseTiming shots).

(** ** The session mode *)

(** What can happen to the program state: an iteration of the main loop, or
    one of the two entry points no iteration calls ([cycleSystemState] for
    the mode button, [recordShotOutcome] for the shot button). *)
Inductive main_step : Sys -> Sys -> Prop :=
| step_iteration (s : Sys) : main_step s (exec main_iteration s)
| step_cycle (s : Sys) : main_step s (exec cycleSystemState s)
| step_record (s : Sys) : main_step s (exec recordShotOutcome s).

Inductive reachable (s0 : Sys) : Sys -> Prop :=
| reachable_start : reachable s0 s0
| reachable_step (s s' : Sys) : reachable s0 s -> main_step s s' -> reachable s0 s'.

Definition next_mode (st : SystemState) : SystemState :=
  match st with
  | STANDBY => TRAINING
  | TRAINING => DATA_REVIEW
  | DATA_REVIEW => STANDBY
  | CALIBRATION => CALIBRATION
  end.

(** ** Shot detection and analysis *)

(** The value of the local [currentAccel] for the draw [r]. *)
Definition simulatedAccel (r : Z) : double :=
  (9.8 + double_of_int (Z.rem r 100) / 10.0)%float.

(** The same for a draw already reduced mod 100, and the two checks made on
    every residue by enumeration. *)
Definition accel_of_residue (a : Z) : double :=
  (9.8 + double_of_int a / 10.0)%float.

Definition residue_in_range (a : Z) : bool :=
  ((9.8 <=? accel_of_residue a) && (accel_of_residue a <? 20)
   && (accel_of_residue a <? double_of_int Sensors.MOTION_THRESHOLD)
   && (5.0 <? PrimFloat.abs (accel_of_residue a - 0)))%float.

Definition residues_follow_rule (a b : Z) : bool :=
  let detected :=
    (5.0 <? PrimFloat.abs (accel_of_residue a - accel_of_residue b))%float in
  if 50 <? Z.abs (a - b) then detected
  else if Z.abs (a - b) <? 50 then negb detected
  else true.

(** The next [k] draws of two states agree. *)
Definition same_draws (k : nat) (s1 s2 : Sys) : Prop :=
  forall i : nat, (i < k)%nat ->
    rand_src s1 (i + rand_calls s1) = rand_src s2 (i + rand_calls s2).

(** ** Concrete states *)

(** A generator whose draws make every call of [detectShotMotion] report a
    shot (the draw behind the simulated acceleration alternates between 0 and
    99) while the per-shot draws vary; and a clock that advances 10 ms per
    reading. *)
Definition demo_rand (k : nat) : Z :=
  match (k mod 12)%nat with
  | 0%nat => 0
  | 6%nat => 99
  | _ => Z.of_nat k
  end.

Definition demo_clock (k : nat) : Z := 10 * Z.of_nat k.

(** The program at start, and after an iteration, a press of the mode
    button and another iteration. *)
Definition standby_demo : Sys := initial_state demo_rand demo_clock.

Definition standby_demo_later : Sys :=
  exec main_iteration (exec cycleSystemState (exec main_iteration standby_demo)).

(** A state that differs from [standby_demo] in mode, clock and trace but
    not in the pending draws. *)
Definition busy_demo : Sys :=
  set_currentState TRAINING
    (set_trace [Cout [Str "Data Review Mode"]]
       (initial_state demo_rand (fun k => 1000 * Z.of_nat k))).

(** A training session entered without calibration. *)
Definition uncalibrated_training_demo : Sys :=
  set_currentState TRAINING standby_demo.

(** The start of a calibration run. *)
Definition calibration_demo : Sys :=
  set_currentState CALIBRATION (initial_state demo_rand demo_clock).

(** The same with every per-shot draw equal to 7: ten identical shots. *)
Definition steady_rand (k : nat) : Z :=
  match (k mod 12)%nat with
  | 0%nat => 0
  | 6%nat => 99
  | _ => 7
  end.

Definition steady_demo : Sys :=
  set_currentState CALIBRATION (initial_state steady_rand demo_clock).

(** A run started while an earlier profile is stored. *)
Definition earlier_profile : CalibrationData :=
  {| avgElbowAngle := 88.5%float; avgWristAngle := 46%float;
     avgReleaseTiming := 1.5%float; avgFollowThrough := 0%float;
     avgBodyBalance := 0%float; stdDevElbow := 0%float;
     stdDevWrist := 0%float; stdDevTiming := 0%float; isValid := true |}.

Definition recalibration_demo : Sys :=
  set_isCalibrated true (set_calibrationData earlier_profile calibration_demo).

(** A calibrated program (average elbow angle 88.5, wrist angle 46) and
    three shots for it: elbow off by 6.5; elbow off by exactly 5.0 and wrist
    off by 4; both within tolerance. *)
Definition trained_demo : Sys :=
  set_isCalibrated true (set_calibrationData earlier_profile standby_demo).

Definition shot_with (elbow wrist : double) : FreeThrowData :=
  {| elbowAngle := elbow; wristAngle := wrist; releaseTiming := 1.5%float;
     followThrough := 1%float; bodyBalance := None; wasSuccessful := None;
     shotDuration := None; peakAcceleration := 20%float |}.

(** * The haptic controller

    [haptic.h] declares the controller's entry points ([triggerPatternFeedback],
    [updateHapticFeedback], [emergencyStop], [isSystemOverheating], ...) and
    the motor record with its constructors; the repository holds no body for
    the entry points. The record, the constructors and the enumerations above
    are the code's. The operations below follow the specification's section
    on the controller. *)

Module HapticController.

Import Haptic.

(** Modelled from the spec: "clamps intensity to [0,255]"; the body of
    [updateHapticFeedback] is missing. *)
Definition clamp_intensity (v : Z) : Z := Z.max 0 (Z.min 255 v).

(** Modelled from the spec: a motor forced to Idle is inactive, silent and
    without a pattern; the bodies of [stopAllHapticFeedback] and
    [emergencyStop] are missing. *)
Definition stop_motor (m : HapticMotor) : HapticMotor :=
  {| pin := pin m; currentIntensity := 0; isActive := false;
     startTime := startTime m; duration := duration m; pattern := NONE |}.

(** Modelled from the spec: [trigger(zone, pattern, intensity, duration)]
    starts the pattern on a motor at the requested intensity, an [int] as in
    the declarations of [triggerHapticFeedback], [setMotorPattern] and
    [setHapticIntensity]; the specification places the clamp in [update].
    The bodies are missing. *)
Definition trigger_motor (pat : HapticPattern) (intensity : Z)
  (dur now : Z) (m : HapticMotor) : HapticMotor :=
  {| pin := pin m; currentIntensity := intensity; isActive := true;
     startTime := now; duration := dur; pattern := pat |}.

(** Modelled from the spec: Idle is the state of a motor that is not active
    and not driven. *)
Definition idle (m : HapticMotor) : bool :=
  negb (isActive m) && (currentIntensity m =? 0).



(** Modelled from the spec: the zone of a motor, after the comments on the
    pin constants (upper arm, lower arm, wrist); the body of
    [getMotorIndex] is missing. *)
Definition in_zone (z : FeedbackZone) (m : HapticMotor) : bool :=
  match z with
  | ALL_ZONES => true
  | UPPER_ARM => pin m =? HAPTIC_1_PIN
  | LOWER_ARM => pin m =? HAPTIC_2_PIN
  | WRIST => pin m =? HAPTIC_3_PIN
  end.

Section Controller.

(** The intensity a pattern asks for, from the pattern, the level the motor
    is at, the elapsed time and the duration. The specification describes
    the patterns and leaves their formulas to the implementation; every
    result below holds for any choice. *)
Variable pattern_level : HapticPattern -> Z -> Z -> Z -> Z.

(** Modelled from the spec: [update(now)] deactivates a motor whose duration
    has elapsed and otherwise advances its pattern, clamping the intensity to
    [0,255]; the body of [updateHapticFeedback] is missing. *)
Definition update_motor (now : Z) (m : HapticMotor) : HapticMotor :=
  if isActive m then
    let elapsed := ulong_sub now (startTime m) in
    if duration m <=? elapsed then stop_motor m
    else
      {| pin := pin m;
         currentIntensity :=
           clamp_intensity
             (pattern_level (pattern m) (currentIntensity m) elapsed (duration m));
         isActive := true; startTime := startTime m; duration := duration m;
         pattern := pattern m |}
  else m.

(** Modelled from the spec: [emergencyStop()] forces all motors to Idle; its
    body is missing. *)
Definition emergencyStop (motors : list HapticMotor) : list HapticMotor :=
  map stop_motor motors.

(** Modelled from the spec: the overheat guard is checked before a trigger
    is applied, and a trigger made while it is tripped is rejected;
    [overheating] is the answer of [isSystemOverheating()] at the call. The
    body of [triggerPatternFeedback] is missing. *)
Definition trigger (overheating : bool) (z : FeedbackZone) (pat : HapticPattern)
  (intensity : Z) (dur now : Z) (motors : list HapticMotor) :
  list HapticMotor :=
  if overheating then motors
  else map (fun m => if in_zone z m then trigger_motor pat intensity dur now m else m)
         motors.

(** Modelled from the spec: the guard is evaluated on every [update]; when
    it is tripped the update is an emergency stop. *)
Definition update (overheating : bool) (now : Z) (motors : list HapticMotor) :
  list HapticMotor :=
  if overheating then emergencyStop motors
  else map (update_motor now) motors.

(** The calls a client can make, with the guard's answer at each. *)
Inductive Call :=
| Trigger (overheating : bool) (z : FeedbackZone) (pat : HapticPattern)
    (intensity : Z) (dur now : Z)
| Update (overheating : bool) (now : Z)
| EmergencyStop.

Definition call (c : Call) (motors : list HapticMotor) : list HapticMotor :=
  match c with
  | Trigger o z pat intensity dur now => trigger o z pat intensity dur now motors
  | Update o now => update o now motors
  | EmergencyStop => emergencyStop motors
  end.

Definition calls (cs : list Call) (motors : list HapticMotor) : list HapticMotor :=
  fold_left (fun ms c => call c ms) cs motors.


(** The guard was tripped when the call was made. *)
Definition while_overheating (c : Call) : Prop :=
  match c with
  | Trigger o _ _ _ _ _ => o = true
  | Update o _ => o = true
  | EmergencyStop => True
  end.

End Controller.

(** [initHapticSystem]: one motor per pin constant. *)
Definition three_motors : list HapticMotor :=
  map HapticMotor_of_pin [HAPTIC_1_PIN; HAPTIC_2_PIN; HAPTIC_3_PIN].

(** An intensity profile for concrete runs: linear ramps for INCREASING and
    DECREASING, the current level otherwise. *)
Definition ramp_level (pat : HapticPattern) (level elapsed dur : Z) : Z :=
  match pat with
  | INCREASING => level * elapsed / dur
  | DECREASING => level * (dur - elapsed) / dur
  | _ => level
  end.

(** Three running motors, stopped, then triggered twice and updated while
    the guard is tripped. *)
Definition running_motors : list HapticMotor :=
  trigger false ALL_ZONES DOUBLE_PULSE (intensity_value STRONG) 300 1000 three_motors.

Definition calls_while_overheating : list Call :=
  [ Trigger true UPPER_ARM CONTINUOUS (intensity_value STRONG) 300 1010;
    Update true 1020;
    Trigger true ALL_ZONES DOUBLE_PULSE (intensity_value LIGHT) 150 1030 ].



End HapticController.

(** * Further observations *)

(** [m] keeps [P]: it holds after [m] whenever it held before. *)
Definition preserves {A} (P : Sys -> Prop) (m : M A) : Prop :=
  forall s : Sys, P s -> P (exec m s).

(** The generator and the clock a state reads from. *)
Definition same_environment (rnd clk : nat -> Z) (s : Sys) : Prop :=
  rand_src s = rnd /\ clock_src s = clk.

(** The haptic commands [main.cpp] can issue: one of the three motor pins
    with an intensity a motor can take and a positive duration, or the
    good-form pattern. *)
Definition well_formed_command (e : Effect) : Prop :=
  match e with
  | TriggerHapticFeedback p intensity dur =>
      In p [HAPTIC_1_PIN; HAPTIC_2_PIN; HAPTIC_3_PIN] /\
      In intensity (map intensity_value [LIGHT; MEDIUM; STRONG]) /\
      0 <= intensity <= 255 /\ 0 < dur
  | TriggerPatternFeedback z pat level =>
      z = ALL_ZONES /\ pat = DOUBLE_PULSE /\ level = LIGHT
  | Cout _ | SleepFor _ => True
  end.

(** The mode after one iteration of the loop, read off the mode, the shot
    detector and the two counters the handlers test. *)
Definition mode_after_iteration (s : Sys) : SystemState :=
  match currentState s with
  | STANDBY => STANDBY
  | CALIBRATION =>
      if eval detectShotMotion (exec checkButtons s)
         && (10 <=? wrap_int (calibrationShots s + 1))
      then STANDBY else CALIBRATION
  | TRAINING => if isCalibrated s then TRAINING else STANDBY
  | DATA_REVIEW => STANDBY
  end.

(** The command of [recordShotOutcome]. *)
Definition SHOT_BUTTON_PULSE : Effect :=
  TriggerHapticFeedback HAPTIC_2_PIN (intensity_value LIGHT) 100.

(** The command of [handleCalibration] for a recorded shot. *)
Definition CALIBRATION_PULSE : Effect :=
  TriggerHapticFeedback HAPTIC_1_PIN (intensity_value STRONG) 100.

(** A program without a profile, with its scoring record at [n] shots, the
    last at [t], and the haptic commands [h] issued so far. *)
Definition unscored (c : CalibrationData) (n t : Z) (h : list Effect) (s : Sys) :
  Prop :=
  calibrationData s = c /\ isCalibrated s = false /\
  shotCount s = n /\ lastShotTime s = t /\ haptic_calls (trace s) = h.

(** Two iterations, a press of the mode button, a press of the shot button
    and three more iterations from the start of the program. *)
Definition pressed_and_run : Sys :=
  run_loop 3 (exec recordShotOutcome (exec cycleSystemState (run_loop 2 standby_demo))).

(** The scoring record: [n] shots counted, the haptic commands [h] issued. *)
Definition scored (n : Z) (h : list Effect) (s : Sys) : Prop :=
  shotCount s = n /\ haptic_calls (trace s) = h.

(** The stored profile and its flag. *)
Definition profile_is (c : CalibrationData) (b : bool) (s : Sys) : Prop :=
  calibrationData s = c /\ isCalibrated s = b.

(** A calibrated program in training mode; the detector's draws alternate,
    so every iteration scores a shot. *)
Definition training_demo : Sys := set_currentState TRAINING trained_demo.

(** Every value the generator hands out is non-negative, as [rand()]
    guarantees. *)
Definition nonneg_draws (s : Sys) : Prop := forall k : nat, 0 <= rand_src s k.

(** The five fields [analyzeShotForm] assigns, for draws already reduced by
    its moduli (20, 10, 100, 40 and 10). *)
Definition elbow_of_residue (a : Z) : double :=
  (90.0 + double_of_int a - double_of_int 10)%float.

Definition wrist_of_residue (a : Z) : double :=
  (45.0 + double_of_int a - double_of_int 5)%float.

Definition timing_of_residue (a : Z) : double :=
  (1.5 + double_of_int a / 1000.0)%float.

Definition follow_of_residue (a : Z) : double :=
  (0.8 + double_of_int a / 100.0)%float.

Definition peak_of_residue (a : Z) : double := (15.0 + double_of_int a)%float.

(** The voltage [monitorBattery] simulates, for a draw reduced mod 10. *)
Definition voltage_of_residue (a : Z) : double :=
  (3.7 + double_of_int a / 100.0)%float.

(** The sum of a list of integers. *)
Definition sum_Z (l : list Z) : Z := fold_right Z.add 0 l.

(** Bit-for-bit equality of doubles, as a test. *)
Definition same_double (x y : double) : bool := PrimFloat.Leibniz.eqb x y.

(** A shot whose elbow and wrist angles are whole degrees within the ranges
    of [analyzeShotForm]. *)
Definition integral_shot (e w : Z) (d : FreeThrowData) : Prop :=
  80 <= e <= 99 /\ 40 <= w <= 49 /\
  elbowAngle d = double_of_int e /\ wristAngle d = double_of_int w.

(** * Properties of the control program *)

(** ** Proof support *)

Lemma haptic_calls_app (t u : list Effect) :
  haptic_calls (t ++ u) = haptic_calls t ++ haptic_calls u.
Proof. apply filter_app. Qed.

Ltac open_monad :=
  cbv [exec eval bind ret gets modify when emit cout sleep_for
       triggerHapticFeedback triggerPatternFeedback rand millis].

Lemma exec_bind {A B} (m : M A) (k : A -> M B) (s : Sys) :
  exec (bind m k) s = exec (k (eval m s)) (exec m s).
Proof. unfold exec, eval, bind. destruct (m s). reflexivity. Qed.

Lemma exec_modify (f : Sys -> Sys) (s : Sys) : exec (modify f) s = f s.
Proof. reflexivity. Qed.

Lemma exec_ret {A} (a : A) (s : Sys) : exec (ret a) s = s.
Proof. reflexivity. Qed.

Lemma exec_gets {A} (f : Sys -> A) (s : Sys) : exec (gets f) s = s.
Proof. reflexivity. Qed.

Lemma eval_gets {A} (f : Sys -> A) (s : Sys) : eval (gets f) s = f s.
Proof. reflexivity. Qed.

Lemma wrap_int_small (z : Z) : - 2 ^ 31 <= z < 2 ^ 31 -> wrap_int z = z.
Proof.
  intros H. unfold wrap_int.
  rewrite Z.mod_small by lia. lia.
Qed.

Lemma sum_doubles_snoc (l : list double) (x : double) :
  sum_doubles (l ++ [x]) = (sum_doubles l + x)%float.
Proof. unfold sum_doubles. rewrite fold_left_app. reflexivity. Qed.

(** Checking a property of the integers below [n] by enumeration. *)
Lemma forall_below (P : Z -> bool) (n : nat) :
  forallb P (map Z.of_nat (seq 0 n)) = true ->
  forall z : Z, 0 <= z < Z.of_nat n -> P z = true.
Proof.
  intros Hall z Hz. rewrite forallb_forall in Hall. apply Hall.
  rewrite <- (Z2Nat.id z) by lia.
  apply in_map, in_seq. lia.
Qed.

(** ** Training without a calibration profile *)

(** C3. When [isCalibrated] is false, [handleTraining] reports
    "Please calibrate first!", hands control back by setting the mode to
    STANDBY and returns: no haptic command is issued, no shot is detected or
    analysed (no draw is consumed, the detector's memory is untouched), and
    the shot counter, the last shot time and the calibration data keep their
    values. *)
Theorem handleTraining_not_calibrated (s : Sys) :
  isCalibrated s = false ->
  let s' := exec handleTraining s in
  trace s' = trace s ++ [Cout [Str "Please calibrate first!"]] /\
  haptic_calls (trace s') = haptic_calls (trace s) /\
  currentState s' = STANDBY /\
  shotCount s' = shotCount s /\
  lastShotTime s' = lastShotTime s /\
  calibrationData s' = calibrationData s /\
  isCalibrated s' = false /\
  rand_calls s' = rand_calls s /\
  lastAccel s' = lastAccel s.
Proof.
  intros Hcal. unfold handleTraining. open_monad. rewrite Hcal. cbn.
  repeat split; trivial.
  rewrite haptic_calls_app. cbn. apply app_nil_r.
Qed.

Lemma handleTraining_not_calibrated_witness :
  isCalibrated uncalibrated_training_demo = false /\
  currentState uncalibrated_training_demo = TRAINING /\
  currentState (exec handleTraining uncalibrated_training_demo) = STANDBY /\
  haptic_calls (trace (exec handleTraining uncalibrated_training_demo)) = [] /\
  shotCount (exec handleTraining uncalibrated_training_demo) = 0 /\
  rand_calls (exec handleTraining uncalibrated_training_demo) = 0%nat.
Proof.
  assert (H : isCalibrated uncalibrated_training_demo = false) by reflexivity.
  destruct (handleTraining_not_calibrated uncalibrated_training_demo H)
    as (_ & Hh & Hm & Hc & _ & _ & _ & Hr & _).
  repeat split; assumption.
Defined.

(** ** Feedback selection *)

(** C4. Scoring a shot issues exactly one haptic command, the first that
    matches in the order elbow, wrist, good form: a STRONG command on the
    upper-arm motor when the elbow deviation exceeds its tolerance; otherwise
    a MEDIUM command on the wrist motor when the wrist deviation exceeds its
    tolerance; otherwise a LIGHT DOUBLE_PULSE on ALL_ZONES. *)
Theorem provideHapticFeedback_first_match (shot : FreeThrowData) (s : Sys) :
  let cal := calibrationData s in
  let s' := exec (provideHapticFeedback shot) s in
  exists e : Effect,
    haptic_calls (trace s') = haptic_calls (trace s) ++ [e] /\
    ((ELBOW_ANGLE_TOLERANCE <? elbowError shot cal)%float = true ->
       e = TriggerHapticFeedback HAPTIC_1_PIN (intensity_value STRONG) 300) /\
    ((ELBOW_ANGLE_TOLERANCE <? elbowError shot cal)%float = false ->
     (WRIST_ANGLE_TOLERANCE <? wristError shot cal)%float = true ->
       e = TriggerHapticFeedback HAPTIC_3_PIN (intensity_value MEDIUM) 150) /\
    ((ELBOW_ANGLE_TOLERANCE <? elbowError shot cal)%float = false ->
     (WRIST_ANGLE_TOLERANCE <? wristError shot cal)%float = false ->
       e = TriggerPatternFeedback ALL_ZONES DOUBLE_PULSE LIGHT).
Proof.
  intros cal s'. subst cal s'.
  unfold provideHapticFeedback, elbowError, wristError. open_monad.
  destruct (ELBOW_ANGLE_TOLERANCE <?
            PrimFloat.abs (elbowAngle shot - avgElbowAngle (calibrationData s)))%float
    eqn:He;
  [ | destruct (WRIST_ANGLE_TOLERANCE <?
            PrimFloat.abs (wristAngle shot - avgWristAngle (calibrationData s)))%float
        eqn:Hw ];
  cbn [fst snd trace set_trace];
  eexists; (split;
    [ rewrite <- !app_assoc, haptic_calls_app; cbn [haptic_calls filter is_haptic app];
      reflexivity
    | repeat split; intros; congruence ]).
Qed.

Example provideHapticFeedback_examples :
  haptic_calls (trace (exec (provideHapticFeedback (shot_with 95%float 46%float)) trained_demo))
  = [TriggerHapticFeedback 25 255 300] /\
  haptic_calls (trace (exec (provideHapticFeedback (shot_with 93.5%float 50%float)) trained_demo))
  = [TriggerHapticFeedback 27 128 150] /\
  haptic_calls (trace (exec (provideHapticFeedback (shot_with 90%float 47%float)) trained_demo))
  = [TriggerPatternFeedback ALL_ZONES DOUBLE_PULSE LIGHT].
Proof. repeat split; vm_compute; reflexivity. Qed.

Lemma trace_emit (e : Effect) (s : Sys) : trace (exec (emit e) s) = trace s ++ [e].
Proof. reflexivity. Qed.

Lemma trace_millis (s : Sys) : trace (exec millis s) = trace s.
Proof. reflexivity. Qed.

Lemma trace_detectShotMotion (s : Sys) : trace (exec detectShotMotion s) = trace s.
Proof. reflexivity. Qed.

Lemma trace_analyzeShotForm (s : Sys) : trace (exec analyzeShotForm s) = trace s.
Proof. reflexivity. Qed.

Lemma trace_set_lastShotTime (v : Z) (s : Sys) : trace (set_lastShotTime v s) = trace s.
Proof. reflexivity. Qed.

Lemma trace_set_shotCount (v : Z) (s : Sys) : trace (set_shotCount v s) = trace s.
Proof. reflexivity. Qed.

(** In training mode every detected shot is scored once: exactly one haptic
    command is issued. *)
Lemma handleTraining_scored_shot (s : Sys) :
  isCalibrated s = true ->
  eval detectShotMotion s = true ->
  exists e : Effect,
    haptic_calls (trace (exec handleTraining s)) = haptic_calls (trace s) ++ [e].
Proof.
  intros Hcal Hdet.
  destruct (provideHapticFeedback_first_match
              (eval analyzeShotForm (exec detectShotMotion s))
              (exec analyzeShotForm (exec detectShotMotion s))) as (e & He & _).
  rewrite trace_analyzeShotForm, trace_detectShotMotion in He.
  exists e.
  unfold handleTraining.
  rewrite exec_bind, eval_gets, exec_gets, Hcal. cbn [negb].
  rewrite exec_bind, Hdet. unfold when, cout.
  rewrite !exec_bind, trace_emit, haptic_calls_app, exec_modify,
    trace_set_lastShotTime, trace_millis, exec_modify, trace_set_shotCount, He.
  cbn [haptic_calls filter is_haptic]. apply app_nil_r.
Qed.

(** ** Calibration runs *)

Lemma handleCalibration_no_shot (s : Sys) :
  calibrationShotAt s = None ->
  calibration_view (exec handleCalibration s) = calibration_view s.
Proof.
  unfold calibrationShotAt, handleCalibration, detectShotMotion. open_monad.
  cbn.
  destruct (5.0 <? _)%float; [discriminate | reflexivity].
Qed.

Lemma handleCalibration_shot_in_progress (s : Sys) (d : FreeThrowData) :
  calibrationShotAt s = Some d ->
  0 <= calibrationShots s < 9 ->
  calibration_view (exec handleCalibration s) =
  (currentState s, calibrationData s, isCalibrated s,
   calibrationShots s + 1,
   (elbowSum s + elbowAngle d)%float,
   (wristSum s + wristAngle d)%float,
   (timingSum s + releaseTiming d)%float).
Proof.
  unfold calibrationShotAt, handleCalibration, detectShotMotion, analyzeShotForm.
  open_monad. cbn.
  destruct (5.0 <? _)%float; [ | discriminate ].
  intros [= <-] Hc. cbn.
  rewrite wrap_int_small by lia.
  destruct (10 <=? calibrationShots s + 1) eqn:Hten; [ lia | reflexivity ].
Qed.

Lemma handleCalibration_tenth_shot (s : Sys) (d : FreeThrowData) :
  calibrationShotAt s = Some d ->
  calibrationShots s = 9 ->
  calibration_view (exec handleCalibration s) =
  (STANDBY, completed_profile s d, true, 0, 0%float, 0%float, 0%float).
Proof.
  unfold calibrationShotAt, handleCalibration, detectShotMotion, analyzeShotForm.
  open_monad. cbn.
  destruct (5.0 <? _)%float; [ | discriminate ].
  intros [= <-] Hc. cbn. rewrite Hc. cbn. reflexivity.
Qed.

(** *** Frame lemmas: what the other functions of the loop leave alone *)

Lemma checkButtons_view (s : Sys) :
  calibration_view (exec checkButtons s) = calibration_view s.
Proof.
  unfold checkButtons. open_monad. cbn.
  destruct (_ <? 50); reflexivity.
Qed.

Lemma monitorBattery_view (s : Sys) :
  calibration_view (exec monitorBattery s) = calibration_view s.
Proof.
  unfold monitorBattery. open_monad. cbn.
  destruct (30000 <? _); [ | reflexivity ]. cbn.
  destruct (_ <? 3.2)%float; reflexivity.
Qed.

Lemma handleStandby_view (s : Sys) :
  calibration_view (exec handleStandby s) = calibration_view s.
Proof.
  unfold handleStandby, readAllSensors, printSensorData. open_monad. cbn.
  destruct (1000 <? _); cbn; destruct (2000 <? _); reflexivity.
Qed.

Lemma sleep_for_view (ms : Z) (s : Sys) :
  calibration_view (exec (sleep_for ms) s) = calibration_view s.
Proof. reflexivity. Qed.

Lemma view_currentState (s t : Sys) :
  calibration_view s = calibration_view t -> currentState s = currentState t.
Proof. unfold calibration_view. congruence. Qed.

Lemma main_iteration_unfold (s : Sys) :
  exec main_iteration s =
  exec (sleep_for 10)
    (exec monitorBattery
       (exec match currentState s with
             | STANDBY => handleStandby
             | CALIBRATION => handleCalibration
             | TRAINING => handleTraining
             | DATA_REVIEW => handleDataReview
             end (exec checkButtons s))).
Proof.
  unfold main_iteration, loop. rewrite !exec_bind.
  change (eval (gets currentState) (exec checkButtons s))
    with (currentState (exec checkButtons s)).
  change (exec (gets currentState) (exec checkButtons s)) with (exec checkButtons s).
  rewrite (view_currentState _ _ (checkButtons_view s)). reflexivity.
Qed.

Lemma main_iteration_calibration_view (s : Sys) :
  currentState s = CALIBRATION ->
  calibration_view (exec main_iteration s) =
  calibration_view (exec handleCalibration (exec checkButtons s)).
Proof.
  intros H. rewrite main_iteration_unfold, H.
  rewrite sleep_for_view, monitorBattery_view. reflexivity.
Qed.

Lemma main_iteration_standby_view (s : Sys) :
  currentState s = STANDBY ->
  calibration_view (exec main_iteration s) = calibration_view s.
Proof.
  intros H. rewrite main_iteration_unfold, H.
  rewrite sleep_for_view, monitorBattery_view, handleStandby_view.
  apply checkButtons_view.
Qed.

Lemma standby_run (n : nat) : forall s : Sys,
  currentState s = STANDBY ->
  calibrationShotsOf n s = [] /\
  calibration_view (run_loop n s) = calibration_view s.
Proof.
  induction n as [ | n IH ]; intros s Hs; cbn [calibrationShotsOf run_loop].
  - split; reflexivity.
  - pose proof (main_iteration_standby_view s Hs) as Hv.
    unfold loopCalibrationShot. rewrite Hs.
    destruct (IH (exec main_iteration s)) as [Hl Hr].
    + rewrite (view_currentState _ _ Hv). exact Hs.
    + split; [ exact Hl | congruence ].
Qed.

Lemma accumulating_step (prev : list FreeThrowData) (s : Sys) :
  accumulating prev s ->
  match loopCalibrationShot s with
  | None =>
      accumulating prev (exec main_iteration s) /\
      calibrationData (exec main_iteration s) = calibrationData s /\
      isCalibrated (exec main_iteration s) = isCalibrated s
  | Some d =>
      (accumulating (prev ++ [d]) (exec main_iteration s) /\
       calibrationData (exec main_iteration s) = calibrationData s /\
       isCalibrated (exec main_iteration s) = isCalibrated s)
      \/ completed (calibrationData s) (prev ++ [d]) (exec main_iteration s)
  end.
Proof.
  intros (Hst & Hlen & Hc & He & Hw & Ht).
  pose proof (main_iteration_calibration_view s Hst) as Hv.
  pose proof (checkButtons_view s) as Hb.
  unfold loopCalibrationShot. rewrite Hst.
  set (s0 := exec checkButtons s) in *.
  set (s1 := exec main_iteration s) in *.
  unfold calibration_view in Hb. injection Hb as Hb1 Hb2 Hb3 Hb4 Hb5 Hb6 Hb7.
  destruct (calibrationShotAt s0) as [ d | ] eqn:Hshot.
  - destruct (Nat.eq_dec (length prev) 9) as [ Hnine | Hnine ].
    + right.
      rewrite (handleCalibration_tenth_shot s0 d Hshot) in Hv by lia.
      split; [ rewrite length_app; cbn; lia | ].
      rewrite Hv. unfold completed_profile, profile_of.
      rewrite !map_app. cbn [map]. rewrite !sum_doubles_snoc.
      congruence.
    + left.
      rewrite (handleCalibration_shot_in_progress s0 d Hshot) in Hv by lia.
      unfold calibration_view in Hv.
      injection Hv as Hv1 Hv2 Hv3 Hv4 Hv5 Hv6 Hv7.
      unfold accumulating. rewrite length_app, !map_app. cbn [map length].
      rewrite !sum_doubles_snoc.
      repeat split; try congruence; try lia.
  - rewrite (handleCalibration_no_shot s0 Hshot) in Hv.
    unfold calibration_view in Hv.
    injection Hv as Hv1 Hv2 Hv3 Hv4 Hv5 Hv6 Hv7.
    unfold accumulating. repeat split; try congruence; try lia.
Qed.

Lemma completed_persists (old : CalibrationData) (shots : list FreeThrowData)
  (n : nat) (s : Sys) :
  completed old shots s ->
  calibrationShotsOf n s = [] /\ completed old shots (run_loop n s).
Proof.
  intros [Hlen Hv].
  assert (Hs : currentState s = STANDBY)
    by (unfold calibration_view in Hv; congruence).
  destruct (standby_run n s Hs) as [Hnil Hsame].
  split; [ exact Hnil | ]. split; [ exact Hlen | congruence ].
Qed.

(** The state of a run after [n] iterations: either still accumulating, with
    the stored profile untouched, or completed with exactly ten shots. *)
Lemma calibration_run (n : nat) : forall (s : Sys) (prev : list FreeThrowData),
  accumulating prev s ->
  (accumulating (prev ++ calibrationShotsOf n s) (run_loop n s) /\
   calibrationData (run_loop n s) = calibrationData s /\
   isCalibrated (run_loop n s) = isCalibrated s)
  \/ completed (calibrationData s) (prev ++ calibrationShotsOf n s) (run_loop n s).
Proof.
  induction n as [ | n IH ]; intros s prev Hacc; cbn [calibrationShotsOf run_loop].
  - left. rewrite app_nil_r. auto.
  - pose proof (accumulating_step prev s Hacc) as Hstep.
    destruct (loopCalibrationShot s) as [ d | ].
    + replace (prev ++ d :: calibrationShotsOf n (exec main_iteration s))
        with ((prev ++ [d]) ++ calibrationShotsOf n (exec main_iteration s))
        by (rewrite <- app_assoc; reflexivity).
      destruct Hstep as [ (Hacc' & Hcd & Hic) | Hdone ].
      * destruct (IH _ _ Hacc') as [ (Ha & Hb & Hc) | Hd ].
        -- left. split; [ exact Ha | split; congruence ].
        -- right. rewrite <- Hcd. exact Hd.
      * right.
        destruct (completed_persists _ _ n _ Hdone) as [Hnil Hd].
        rewrite Hnil, app_nil_r. exact Hd.
    + destruct Hstep as (Hacc' & Hcd & Hic).
      destruct (IH _ _ Hacc') as [ (Ha & Hb & Hc) | Hd ].
      * left. split; [ exact Ha | split; congruence ].
      * right. rewrite <- Hcd. exact Hd.
Qed.

Lemma started_accumulating (s : Sys) : calibration_started s -> accumulating [] s.
Proof.
  intros (H1 & H2 & H3 & H4 & H5). unfold accumulating. cbn.
  repeat split; trivial. lia.
Qed.

Lemma calibration_run_from_start (n : nat) (s : Sys) :
  calibration_started s ->
  (accumulating (calibrationShotsOf n s) (run_loop n s) /\
   calibrationData (run_loop n s) = calibrationData s /\
   isCalibrated (run_loop n s) = isCalibrated s)
  \/ completed (calibrationData s) (calibrationShotsOf n s) (run_loop n s).
Proof.
  intros H. exact (calibration_run n s [] (started_accumulating s H)).
Qed.

(** *** The validity flags *)

(** C1. In a run of the calibration mode at most ten shots are recorded;
    while fewer than ten have been, [handleCalibration] has not written the
    profile's [isValid] nor the global [isCalibrated] (both hold the values
    they had when the run started), and once the tenth is recorded both are
    true. For a profile that was not valid at the start, the flags are
    therefore true if and only if exactly ten shots were recorded. *)
Theorem calibration_valid_iff_ten_shots (n : nat) (s : Sys) :
  calibration_started s ->
  let shots := calibrationShotsOf n s in
  let s' := run_loop n s in
  (length shots <= 10)%nat /\
  ((length shots < 10)%nat ->
     isValid (calibrationData s') = isValid (calibrationData s) /\
     isCalibrated s' = isCalibrated s) /\
  (length shots = 10%nat ->
     isValid (calibrationData s') = true /\ isCalibrated s' = true) /\
  (isValid (calibrationData s) = false -> isCalibrated s = false ->
     (isValid (calibrationData s') = true /\ isCalibrated s' = true
      <-> Z.of_nat (length shots) = Sensors.CALIBRATION_SAMPLES)).
Proof.
  intros Hstart shots s'. subst shots s'.
  unfold Sensors.CALIBRATION_SAMPLES.
  destruct (calibration_run_from_start n s Hstart)
    as [ ((_ & Hlt & _) & Hcd & Hic) | (Hten & Hv) ].
  - rewrite Hcd, Hic. repeat split; intros; try lia; try congruence.
    destruct H1; congruence.
  - unfold calibration_view in Hv.
    injection Hv as _ Hcd Hic _ _ _ _.
    rewrite Hcd, Hic, Hten. cbn.
    repeat split; intros; try lia; reflexivity.
Qed.

Lemma calibration_valid_iff_ten_shots_witness :
  calibration_started calibration_demo /\
  length (calibrationShotsOf 9 calibration_demo) = 9%nat /\
  isCalibrated (run_loop 9 calibration_demo) = false /\
  length (calibrationShotsOf 10 calibration_demo) = 10%nat /\
  isValid (calibrationData (run_loop 10 calibration_demo)) = true /\
  isCalibrated (run_loop 10 calibration_demo) = true.
Proof.
  assert (Hstart : calibration_started calibration_demo) by (repeat split).
  assert (Hnine : length (calibrationShotsOf 9 calibration_demo) = 9%nat)
    by (vm_compute; reflexivity).
  assert (Hten : length (calibrationShotsOf 10 calibration_demo) = 10%nat)
    by (vm_compute; reflexivity).
  destruct (calibration_valid_iff_ten_shots 9 calibration_demo Hstart)
    as (_ & Hbefore & _).
  destruct (calibration_valid_iff_ten_shots 10 calibration_demo Hstart)
    as (_ & _ & Hat & _).
  destruct (Hat Hten) as [Hvalid Hcal].
  destruct Hbefore as [_ Hkept]; [ rewrite Hnine; lia | ].
  repeat split; assumption.
Defined.

(** *** The stored profile during a run *)

(** C6. At every point of a calibration run at which fewer than ten shots
    have been recorded, the stored profile (every field of [calibrationData])
    and [isCalibrated] are what they were when the run started, and the run
    is still in calibration mode. *)
Theorem profile_unchanged_before_tenth_shot (n : nat) (s : Sys) :
  calibration_started s ->
  (length (calibrationShotsOf n s) < 10)%nat ->
  calibrationData (run_loop n s) = calibrationData s /\
  isCalibrated (run_loop n s) = isCalibrated s /\
  currentState (run_loop n s) = CALIBRATION.
Proof.
  intros Hstart Hlt.
  destruct (calibration_run_from_start n s Hstart)
    as [ ((Hst & _) & Hcd & Hic) | (Hten & _) ].
  - auto.
  - lia.
Qed.

Lemma profile_unchanged_before_tenth_shot_witness :
  calibration_started recalibration_demo /\
  length (calibrationShotsOf 9 recalibration_demo) = 9%nat /\
  calibrationData (run_loop 9 recalibration_demo) = earlier_profile /\
  isCalibrated (run_loop 9 recalibration_demo) = true /\
  currentState (run_loop 9 recalibration_demo) = CALIBRATION.
Proof.
  assert (Hstart : calibration_started recalibration_demo) by (repeat split).
  assert (Hnine : length (calibrationShotsOf 9 recalibration_demo) = 9%nat)
    by (vm_compute; reflexivity).
  split; [ exact Hstart | split; [ exact Hnine | ] ].
  apply (profile_unchanged_before_tenth_shot 9 recalibration_demo Hstart).
  rewrite Hnine. lia.
Defined.

(** *** Averages and standard deviations *)

Lemma mean_of_ten (l : list double) :
  length l = 10%nat -> arithmetic_mean l = (sum_doubles l / 10.0)%float.
Proof. intros H. unfold arithmetic_mean. rewrite H. reflexivity. Qed.

(** C2, as stated, fails: the run of [calibration_demo] completes with ten
    shots whose elbow angles differ (81, 87, ..., 95), yet [stdDevElbow] is
    still 0, not their population standard deviation. *)
Lemma stddev_fields_not_computed :
  length (calibrationShotsOf 10 calibration_demo) = 10%nat /\
  isValid (calibrationData (run_loop 10 calibration_demo)) = true /\
  stdDevElbow (calibrationData (run_loop 10 calibration_demo)) = 0%float /\
  ~ profile_has_statistics (calibrationData (run_loop 10 calibration_demo))
      (calibrationShotsOf 10 calibration_demo).
Proof.
  repeat split; try (vm_compute; reflexivity).
  intros (_ & _ & _ & Hsd & _).
  apply (f_equal (fun x => (x =? 0)%float)) in Hsd.
  vm_compute in Hsd. discriminate.
Qed.

(** C2, amended. When a run completes, [avgElbowAngle], [avgWristAngle] and
    [avgReleaseTiming] are the means of the ten recorded values (summed in
    shot order and divided by 10.0, in [double]) and [isValid] is true; the
    standard-deviation fields, [avgFollowThrough] and [avgBodyBalance] are
    not written: they keep the values they had before the run. *)
Theorem completed_profile_means (n : nat) (s : Sys) :
  calibration_started s ->
  length (calibrationShotsOf n s) = 10%nat ->
  let shots := calibrationShotsOf n s in
  let cal := calibrationData s in
  let cal' := calibrationData (run_loop n s) in
  avgElbowAngle cal' = arithmetic_mean (map elbowAngle shots) /\
  avgWristAngle cal' = arithmetic_mean (map wristAngle shots) /\
  avgReleaseTiming cal' = arithmetic_mean (map releaseTiming shots) /\
  isValid cal' = true /\
  stdDevElbow cal' = stdDevElbow cal /\
  stdDevWrist cal' = stdDevWrist cal /\
  stdDevTiming cal' = stdDevTiming cal /\
  avgFollowThrough cal' = avgFollowThrough cal /\
  avgBodyBalance cal' = avgBodyBalance cal.
Proof.
  intros Hstart Hten shots cal cal'. subst shots cal cal'.
  destruct (calibration_run_from_start n s Hstart)
    as [ ((_ & Hlt & _) & _) | (_ & Hv) ]; [ lia | ].
  unfold calibration_view in Hv. injection Hv as _ Hcd _ _ _ _ _.
  rewrite Hcd.
  rewrite !mean_of_ten by (rewrite length_map; exact Hten).
  cbn. repeat split.
Qed.

(** Ten identical shots (elbow 87, wrist 47, timing 1.507) on the
    zero-initialised profile: the averages are those values up to rounding,
    the standard deviations are 0 and the profile is valid. *)
Lemma completed_profile_means_witness :
  calibration_started steady_demo /\
  length (calibrationShotsOf 10 steady_demo) = 10%nat /\
  avgElbowAngle (calibrationData (run_loop 10 steady_demo)) = 87%float /\
  stdDevElbow (calibrationData (run_loop 10 steady_demo)) = 0%float /\
  stdDevWrist (calibrationData (run_loop 10 steady_demo)) = 0%float /\
  stdDevTiming (calibrationData (run_loop 10 steady_demo)) = 0%float /\
  isValid (calibrationData (run_loop 10 steady_demo)) = true.
Proof.
  assert (Hstart : calibration_started steady_demo) by (repeat split).
  assert (Hten : length (calibrationShotsOf 10 steady_demo) = 10%nat)
    by (vm_compute; reflexivity).
  destruct (completed_profile_means 10 steady_demo Hstart Hten)
    as (He & _ & _ & Hv & H1 & H2 & H3 & _).
  repeat split; assumption.
Defined.

(** ** The session mode *)

Lemma cycleSystemState_mode (s : Sys) :
  currentState (exec cycleSystemState s) = next_mode (currentState s).
Proof.
  unfold cycleSystemState. open_monad. cbn.
  destruct (currentState s) eqn:H; cbn; auto.
Qed.

Lemma monitorBattery_mode (s : Sys) :
  currentState (exec monitorBattery s) = currentState s.
Proof. exact (view_currentState _ _ (monitorBattery_view s)). Qed.

Lemma provideHapticFeedback_mode (d : FreeThrowData) (s : Sys) :
  currentState (exec (provideHapticFeedback d) s) = currentState s.
Proof.
  unfold provideHapticFeedback. open_monad.
  destruct (ELBOW_ANGLE_TOLERANCE <? _)%float; [ reflexivity | ].
  destruct (WRIST_ANGLE_TOLERANCE <? _)%float; reflexivity.
Qed.

Lemma emit_mode (e : Effect) (s : Sys) :
  currentState (exec (emit e) s) = currentState s.
Proof. reflexivity. Qed.

Lemma millis_mode (s : Sys) : currentState (exec millis s) = currentState s.
Proof. reflexivity. Qed.

Lemma set_lastShotTime_mode (v : Z) (s : Sys) :
  currentState (set_lastShotTime v s) = currentState s.
Proof. reflexivity. Qed.

Lemma set_shotCount_mode (v : Z) (s : Sys) :
  currentState (set_shotCount v s) = currentState s.
Proof. reflexivity. Qed.

Lemma detectShotMotion_mode (s : Sys) :
  currentState (exec detectShotMotion s) = currentState s.
Proof. reflexivity. Qed.

Lemma analyzeShotForm_mode (s : Sys) :
  currentState (exec analyzeShotForm s) = currentState s.
Proof. reflexivity. Qed.

Lemma handleTraining_mode (s : Sys) :
  currentState s = TRAINING ->
  currentState (exec handleTraining s) <> CALIBRATION.
Proof.
  intros H. unfold handleTraining.
  rewrite exec_bind, eval_gets, exec_gets.
  destruct (isCalibrated s); cbn [negb].
  - rewrite exec_bind.
    destruct (eval detectShotMotion s); unfold when.
    + unfold cout. rewrite !exec_bind, emit_mode, exec_modify, set_lastShotTime_mode,
        millis_mode, exec_modify, set_shotCount_mode, provideHapticFeedback_mode,
        analyzeShotForm_mode, detectShotMotion_mode.
      congruence.
    + rewrite exec_ret, detectShotMotion_mode. congruence.
  - unfold cout. rewrite exec_bind, exec_modify. discriminate.
Qed.

Lemma handleDataReview_mode (s : Sys) :
  currentState (exec handleDataReview s) = STANDBY.
Proof.
  unfold handleDataReview. open_monad. cbn.
  destruct (isCalibrated s); reflexivity.
Qed.

Lemma main_iteration_mode (s : Sys) :
  currentState s <> CALIBRATION ->
  currentState (exec main_iteration s) <> CALIBRATION.
Proof.
  intros H. rewrite main_iteration_unfold.
  change (currentState (exec (sleep_for 10) ?x)) with (currentState x).
  rewrite monitorBattery_mode.
  pose proof (view_currentState _ _ (checkButtons_view s)) as Hb.
  destruct (currentState s) eqn:Hs.
  - rewrite (view_currentState _ _ (handleStandby_view _)). congruence.
  - congruence.
  - apply handleTraining_mode. congruence.
  - rewrite handleDataReview_mode. discriminate.
Qed.

Lemma main_step_mode (s s' : Sys) :
  main_step s s' -> currentState s <> CALIBRATION -> currentState s' <> CALIBRATION.
Proof.
  intros Hstep H. destruct Hstep.
  - apply main_iteration_mode. exact H.
  - rewrite cycleSystemState_mode. destruct (currentState s); cbn; congruence.
  - exact H.
Qed.

(** C10. Started in STANDBY, the program is never in CALIBRATION mode:
    no iteration of the main loop and no button entry point moves there.
    [cycleSystemState] sends STANDBY to TRAINING, TRAINING to DATA_REVIEW,
    DATA_REVIEW to STANDBY and leaves CALIBRATION where it is. *)
Theorem calibration_mode_unreachable (s0 s : Sys) :
  currentState s0 = STANDBY ->
  reachable s0 s ->
  currentState s <> CALIBRATION /\
  (forall t : Sys,
     currentState (exec cycleSystemState t) =
     match currentState t with
     | STANDBY => TRAINING
     | TRAINING => DATA_REVIEW
     | DATA_REVIEW => STANDBY
     | CALIBRATION => CALIBRATION
     end).
Proof.
  intros H0 Hreach. split; [ | exact cycleSystemState_mode ].
  induction Hreach as [ | s s' _ IH Hstep ].
  - congruence.
  - exact (main_step_mode s s' Hstep IH).
Qed.

(** Without the mode button the loop does not even leave STANDBY. *)
Lemma loop_stays_in_standby (n : nat) (s : Sys) :
  currentState s = STANDBY -> currentState (run_loop n s) = STANDBY.
Proof.
  intros H. destruct (standby_run n s H) as [_ Hv].
  rewrite (view_currentState _ _ Hv). exact H.
Qed.

Lemma calibration_mode_unreachable_witness :
  currentState standby_demo = STANDBY /\
  reachable standby_demo standby_demo_later /\
  currentState standby_demo_later <> CALIBRATION.
Proof.
  assert (H0 : currentState standby_demo = STANDBY) by reflexivity.
  assert (Hr : reachable standby_demo standby_demo_later).
  { eapply reachable_step; [ | apply step_iteration ].
    eapply reachable_step; [ | apply step_cycle ].
    eapply reachable_step; [ | apply step_iteration ].
    apply reachable_start. }
  destruct (calibration_mode_unreachable _ _ H0 Hr) as [Hne _].
  repeat split; assumption.
Defined.

(** ** Shot detection *)

Lemma detectShotMotion_eval (s : Sys) :
  eval detectShotMotion s =
  (5.0 <? PrimFloat.abs (simulatedAccel (rand_src s (rand_calls s)) - lastAccel s))%float.
Proof. reflexivity. Qed.

Lemma detectShotMotion_lastAccel (s : Sys) :
  lastAccel (exec detectShotMotion s) = simulatedAccel (rand_src s (rand_calls s)).
Proof. reflexivity. Qed.

(** C5, as stated, fails. On the first call, with draw 0, the simulated
    magnitude is 9.8: below MOTION_THRESHOLD (5000), and not above
    SHOT_DETECTION_THRESHOLD (15000); [detectShotMotion] reports a shot. *)
Lemma shot_detected_below_thresholds :
  rand_src standby_demo (rand_calls standby_demo) = 0 /\
  lastAccel (exec detectShotMotion standby_demo) = 9.8%float /\
  (lastAccel (exec detectShotMotion standby_demo)
   <? double_of_int Sensors.MOTION_THRESHOLD)%float = true /\
  (double_of_int Sensors.SHOT_DETECTION_THRESHOLD
   <? lastAccel (exec detectShotMotion standby_demo))%float = false /\
  eval detectShotMotion standby_demo = true.
Proof. repeat split; vm_compute; reflexivity. Qed.

Lemma rem_100_range (r : Z) : 0 <= r -> 0 <= Z.rem r 100 < Z.of_nat 100.
Proof. intros H. pose proof (Z.rem_bound_pos r 100 H). lia. Qed.

Lemma residues_in_range (a : Z) : 0 <= a < Z.of_nat 100 -> residue_in_range a = true.
Proof. apply forall_below. vm_compute. reflexivity. Qed.

Lemma residues_rule (a b : Z) :
  0 <= a < Z.of_nat 100 -> 0 <= b < Z.of_nat 100 -> residues_follow_rule a b = true.
Proof.
  intros Ha Hb.
  apply (forall_below (fun y => residues_follow_rule a y) 100); [ | exact Hb ].
  apply (forall_below
           (fun x => forallb (fun y => residues_follow_rule x y)
                       (map Z.of_nat (seq 0 100))) 100); [ | exact Ha ].
  vm_compute. reflexivity.
Qed.

(** C5, amended. [detectShotMotion] consults neither MOTION_THRESHOLD nor
    SHOT_DETECTION_THRESHOLD. For a draw [r >= 0] the simulated magnitude lies
    from 9.8 up to, not including, 20: below MOTION_THRESHOLD, and a shot is reported exactly
    when it differs from the magnitude of the previous call by more than 5.0:
    always on the first call (previous magnitude 0), afterwards whenever the
    two draws reduced mod 100 differ by more than 50 and never when they
    differ by less than 50. *)
Theorem detectShotMotion_difference_rule (s : Sys) :
  let r := rand_src s (rand_calls s) in
  0 <= r ->
  eval detectShotMotion s =
    (5.0 <? PrimFloat.abs (simulatedAccel r - lastAccel s))%float /\
  lastAccel (exec detectShotMotion s) = simulatedAccel r /\
  (9.8 <=? simulatedAccel r)%float = true /\
  (simulatedAccel r <? 20)%float = true /\
  (simulatedAccel r <? double_of_int Sensors.MOTION_THRESHOLD)%float = true /\
  (lastAccel s = 0%float -> eval detectShotMotion s = true) /\
  (forall r0 : Z, 0 <= r0 -> lastAccel s = simulatedAccel r0 ->
     (50 < Z.abs (Z.rem r 100 - Z.rem r0 100) -> eval detectShotMotion s = true) /\
     (Z.abs (Z.rem r 100 - Z.rem r0 100) < 50 -> eval detectShotMotion s = false)).
Proof.
  intros r Hr.
  pose proof (residues_in_range (Z.rem r 100) (rem_100_range r Hr)) as Hin.
  unfold residue_in_range in Hin.
  apply andb_prop in Hin. destruct Hin as [Hin H4].
  apply andb_prop in Hin. destruct Hin as [Hin H3].
  apply andb_prop in Hin. destruct Hin as [H1 H2].
  split; [ reflexivity | ]. split; [ reflexivity | ].
  split; [ exact H1 | ]. split; [ exact H2 | ]. split; [ exact H3 | ].
  split.
  - intros H0. rewrite detectShotMotion_eval. fold r. rewrite H0. exact H4.
  - intros r0 Hr0 Hlast.
    pose proof (residues_rule (Z.rem r 100) (Z.rem r0 100)
                  (rem_100_range r Hr) (rem_100_range r0 Hr0)) as Hrule.
    unfold residues_follow_rule in Hrule.
    rewrite detectShotMotion_eval. fold r. rewrite Hlast.
    change (simulatedAccel r) with (accel_of_residue (Z.rem r 100)).
    change (simulatedAccel r0) with (accel_of_residue (Z.rem r0 100)).
    split; intros Hd.
    + apply Z.ltb_lt in Hd. rewrite Hd in Hrule. exact Hrule.
    + assert (Hn : (50 <? Z.abs (Z.rem r 100 - Z.rem r0 100)) = false)
        by (apply Z.ltb_ge; lia).
      apply Z.ltb_lt in Hd. rewrite Hn, Hd in Hrule.
      apply negb_true_iff in Hrule. exact Hrule.
Qed.

(** The second call of a session: draws 0 then 1, no shot. *)
Lemma detectShotMotion_difference_rule_witness :
  0 <= rand_src (exec detectShotMotion standby_demo)
         (rand_calls (exec detectShotMotion standby_demo)) /\
  eval detectShotMotion standby_demo = true /\
  eval detectShotMotion (exec detectShotMotion standby_demo) = false.
Proof.
  assert (H0 : 0 <= rand_src standby_demo (rand_calls standby_demo))
    by (vm_compute; discriminate).
  assert (H1 : 0 <= rand_src (exec detectShotMotion standby_demo)
                      (rand_calls (exec detectShotMotion standby_demo)))
    by (vm_compute; discriminate).
  destruct (detectShotMotion_difference_rule standby_demo H0)
    as (_ & _ & _ & _ & _ & Hfirst & _).
  destruct (detectShotMotion_difference_rule (exec detectShotMotion standby_demo) H1)
    as (_ & _ & _ & _ & _ & _ & Hnext).
  destruct (Hnext 0) as [_ Hno]; [ lia | reflexivity | ].
  split; [ exact H1 | ]. split.
  - apply Hfirst. reflexivity.
  - apply Hno. vm_compute. reflexivity.
Defined.

(** ** Shot analysis and the generator *)

(** C9, as stated, fails. [analyzeShotForm] has no input: called twice in
    a row in the same program it answers from the next draws of [rand()], and
    returns an elbow angle of 80 and then of 85. *)
Lemma analyzeShotForm_twice_differs :
  elbowAngle (eval analyzeShotForm standby_demo) = 80%float /\
  elbowAngle (eval analyzeShotForm (exec analyzeShotForm standby_demo)) = 85%float /\
  eval analyzeShotForm standby_demo
  <> eval analyzeShotForm (exec analyzeShotForm standby_demo).
Proof.
  split; [ vm_compute; reflexivity | ]. split; [ vm_compute; reflexivity | ].
  intros H.
  apply (f_equal (fun d => (elbowAngle d =? 80)%float)) in H.
  vm_compute in H. discriminate.
Qed.

(** C9, amended. The shot data of [analyzeShotForm] is a function of the
    five draws it consumes and of nothing else in the program state, and the
    answer of [detectShotMotion] is a function of the draw it consumes and of
    the magnitude remembered from the previous call: two runs that see the
    same draws (and the same remembered magnitude) return the same results.
    [bodyBalance], [wasSuccessful] and [shotDuration] are never assigned. *)
Theorem analysis_determined_by_draws (s1 s2 : Sys) :
  (same_draws 5 s1 s2 ->
     eval analyzeShotForm s1 = eval analyzeShotForm s2) /\
  (same_draws 1 s1 s2 -> lastAccel s1 = lastAccel s2 ->
     eval detectShotMotion s1 = eval detectShotMotion s2 /\
     lastAccel (exec detectShotMotion s1) = lastAccel (exec detectShotMotion s2)) /\
  bodyBalance (eval analyzeShotForm s1) = None /\
  wasSuccessful (eval analyzeShotForm s1) = None /\
  shotDuration (eval analyzeShotForm s1) = None /\
  rand_calls (exec analyzeShotForm s1) = (5 + rand_calls s1)%nat.
Proof.
  split; [ | split; [ | repeat split ] ].
  - intros H.
    pose proof (H 0%nat ltac:(lia)) as H0. pose proof (H 1%nat ltac:(lia)) as H1.
    pose proof (H 2%nat ltac:(lia)) as H2. pose proof (H 3%nat ltac:(lia)) as H3.
    pose proof (H 4%nat ltac:(lia)) as H4.
    cbn [Nat.add] in H0, H1, H2, H3, H4.
    unfold analyzeShotForm. open_monad.
    cbn [fst snd rand_src rand_calls set_rand_calls].
    rewrite H0, H1, H2, H3, H4. reflexivity.
  - intros H Hlast. pose proof (H 0%nat ltac:(lia)) as H0. cbn [Nat.add] in H0.
    rewrite !detectShotMotion_eval, !detectShotMotion_lastAccel, H0, Hlast.
    split; reflexivity.
Qed.

Lemma analysis_determined_by_draws_witness :
  same_draws 5 standby_demo busy_demo /\
  currentState standby_demo <> currentState busy_demo /\
  eval analyzeShotForm standby_demo = eval analyzeShotForm busy_demo.
Proof.
  assert (H : same_draws 5 standby_demo busy_demo) by (intros i _; reflexivity).
  split; [ exact H | ]. split; [ discriminate | ].
  exact (proj1 (analysis_determined_by_draws standby_demo busy_demo) H).
Defined.

(** * Further properties of the control program *)

(** ** Invariants of monadic code *)

Lemma preserves_ret {A} (P : Sys -> Prop) (a : A) : preserves P (ret a).
Proof. intros s H. exact H. Qed.

Lemma preserves_gets {A} (P : Sys -> Prop) (f : Sys -> A) : preserves P (gets f).
Proof. intros s H. exact H. Qed.

Lemma preserves_bind {A B} (P : Sys -> Prop) (m : M A) (k : A -> M B) :
  preserves P m -> (forall a, preserves P (k a)) -> preserves P (bind m k).
Proof.
  intros Hm Hk s H. rewrite exec_bind. apply Hk, Hm, H.
Qed.

Lemma preserves_when (P : Sys -> Prop) (b : bool) (m : M unit) :
  preserves P m -> preserves P (when b m).
Proof. intros Hm. destruct b; [ exact Hm | apply preserves_ret ]. Qed.

Lemma preserves_modify (P : Sys -> Prop) (f : Sys -> Sys) :
  (forall s, P s -> P (f s)) -> preserves P (modify f).
Proof. intros Hf s H. apply Hf, H. Qed.

(** Reduces [preserves P m], for [m] written with the combinators, to the
    assignments, draws, clock readings and emitted effects of [m]. *)
Ltac preserves_steps :=
  repeat first
    [ apply preserves_ret
    | apply preserves_gets
    | apply preserves_bind; [ | intro ]
    | apply preserves_when
    | progress cbv zeta
    | match goal with
      | |- preserves _ (if ?b then _ else _) => destruct b
      | |- preserves _ (match ?x with STANDBY => _ | _ => _ end) => destruct x
      end ].

Ltac unfold_program :=
  unfold main_iteration, loop, checkButtons, handleStandby, handleCalibration,
    handleTraining, handleDataReview, monitorBattery, readAllSensors,
    printSensorData, provideHapticFeedback, detectShotMotion, analyzeShotForm,
    cycleSystemState, recordShotOutcome,
    cout, sleep_for, triggerHapticFeedback, triggerPatternFeedback, emit.

Lemma reachable_invariant (P : Sys -> Prop) :
  preserves P main_iteration ->
  preserves P cycleSystemState ->
  preserves P recordShotOutcome ->
  forall s0 s : Sys, reachable s0 s -> P s0 -> P s.
Proof.
  intros Hi Hc Hr s0 s Hreach H0.
  induction Hreach as [ | s s' _ IH Hstep ]; [ exact H0 | ].
  destruct Hstep; [ apply Hi | apply Hc | apply Hr ]; exact IH.
Qed.

(** ** The generator and the clock are only read *)

Ltac same_leaf :=
  first
    [ apply preserves_modify; intros ? H; exact H
    | intros ? H; exact H ].

Lemma main_iteration_environment (rnd clk : nat -> Z) :
  preserves (same_environment rnd clk) main_iteration.
Proof. unfold_program. preserves_steps; same_leaf. Qed.

(** ** The calibration flags are never cleared *)

Ltac flag_leaf :=
  first
    [ apply preserves_modify; intros ? H; first [ exact H | reflexivity ]
    | intros ? H; exact H ].

Lemma flags_kept_by_iteration :
  preserves (fun s => isCalibrated s = true) main_iteration /\
  preserves (fun s => isValid (calibrationData s) = true) main_iteration.
Proof. split; unfold_program; preserves_steps; flag_leaf. Qed.

Lemma flags_kept_by_buttons :
  preserves (fun s => isCalibrated s = true) cycleSystemState /\
  preserves (fun s => isValid (calibrationData s) = true) cycleSystemState /\
  preserves (fun s => isCalibrated s = true) recordShotOutcome /\
  preserves (fun s => isValid (calibrationData s) = true) recordShotOutcome.
Proof. repeat split; unfold_program; preserves_steps; flag_leaf. Qed.

(** X5. No step of the program clears [isCalibrated] or the profile's [isValid]:
    once true, each stays true in every state reached afterwards. *)
Theorem calibration_flags_never_cleared (s0 s : Sys) :
  reachable s0 s ->
  (isCalibrated s0 = true -> isCalibrated s = true) /\
  (isValid (calibrationData s0) = true -> isValid (calibrationData s) = true).
Proof.
  intros Hreach.
  destruct flags_kept_by_iteration as [Hi1 Hi2].
  destruct flags_kept_by_buttons as (Hc1 & Hc2 & Hr1 & Hr2).
  split.
  - exact (reachable_invariant _ Hi1 Hc1 Hr1 s0 s Hreach).
  - exact (reachable_invariant _ Hi2 Hc2 Hr2 s0 s Hreach).
Qed.

Lemma reachable_run_loop (n : nat) : forall s0 s : Sys,
  reachable s0 s -> reachable s0 (run_loop n s).
Proof.
  induction n as [ | n IH ]; intros s0 s H; cbn [run_loop].
  - exact H.
  - apply IH. eapply reachable_step; [ exact H | apply step_iteration ].
Qed.

Lemma calibration_flags_never_cleared_witness :
  reachable recalibration_demo (run_loop 10 recalibration_demo) /\
  isCalibrated recalibration_demo = true /\
  isCalibrated (run_loop 10 recalibration_demo) = true /\
  isValid (calibrationData (run_loop 10 recalibration_demo)) = true.
Proof.
  assert (H : reachable recalibration_demo (run_loop 10 recalibration_demo))
    by (apply reachable_run_loop, reachable_start).
  destruct (calibration_flags_never_cleared _ _ H) as [H1 H2].
  split; [ exact H | ]. split; [ reflexivity | ].
  split; [ apply H1 | apply H2 ]; reflexivity.
Defined.

(** ** The haptic commands issued *)

Lemma preserves_emit_well_formed (e : Effect) :
  well_formed_command e ->
  preserves (fun s => Forall well_formed_command (trace s))
    (modify (fun s => set_trace (trace s ++ [e]) s)).
Proof.
  intros He. apply preserves_modify. intros s H.
  change (trace (set_trace (trace s ++ [e]) s)) with (trace s ++ [e]).
  apply Forall_app. split; [ exact H | constructor; [ exact He | constructor ] ].
Qed.

Ltac command_leaf :=
  first
    [ apply preserves_emit_well_formed; cbn; first [ exact I | intuition lia ]
    | apply preserves_modify; intros ? H; exact H
    | intros ? H; exact H ].

Lemma commands_well_formed_steps :
  preserves (fun s => Forall well_formed_command (trace s)) main_iteration /\
  preserves (fun s => Forall well_formed_command (trace s)) cycleSystemState /\
  preserves (fun s => Forall well_formed_command (trace s)) recordShotOutcome.
Proof. repeat split; unfold_program; preserves_steps; command_leaf. Qed.

(** X6. Every haptic command the program issues, in any state it reaches, names
    one of the three motor pins with an intensity of [FeedbackIntensity]
    (hence within 0..255) and a positive duration, or is the LIGHT
    DOUBLE_PULSE on ALL_ZONES. *)
Theorem haptic_commands_well_formed (s0 s : Sys) :
  reachable s0 s ->
  Forall well_formed_command (trace s0) ->
  Forall well_formed_command (trace s).
Proof.
  intros Hreach.
  destruct commands_well_formed_steps as (Hi & Hc & Hr).
  exact (reachable_invariant _ Hi Hc Hr s0 s Hreach).
Qed.

Lemma haptic_commands_well_formed_witness :
  reachable calibration_demo (run_loop 10 calibration_demo) /\
  Forall well_formed_command (trace calibration_demo) /\
  length (haptic_calls (trace (run_loop 10 calibration_demo))) = 10%nat /\
  Forall well_formed_command (trace (run_loop 10 calibration_demo)).
Proof.
  assert (H : reachable calibration_demo (run_loop 10 calibration_demo))
    by (apply reachable_run_loop, reachable_start).
  assert (H0 : Forall well_formed_command (trace calibration_demo))
    by constructor.
  split; [ exact H | ]. split; [ exact H0 | ].
  split; [ vm_compute; reflexivity | ].
  exact (haptic_commands_well_formed _ _ H H0).
Defined.

(** ** The mode button and the mode after an iteration *)

Lemma cycleSystemState_frame (s : Sys) :
  calibrationData (exec cycleSystemState s) = calibrationData s /\
  isCalibrated (exec cycleSystemState s) = isCalibrated s /\
  shotCount (exec cycleSystemState s) = shotCount s /\
  haptic_calls (trace (exec cycleSystemState s)) = haptic_calls (trace s).
Proof.
  unfold cycleSystemState. open_monad. cbn.
  destruct (currentState s); cbn; repeat split;
    try (rewrite haptic_calls_app; cbn; apply app_nil_r).
Qed.

(** X9. Three presses of the mode button bring the mode back to where it was
    (STANDBY, TRAINING and DATA_REVIEW form a cycle, CALIBRATION is fixed),
    and leave the profile, the flags, the shot counter and the haptic motors
    alone. *)
Theorem cycleSystemState_three_presses (s : Sys) :
  let s3 := exec cycleSystemState (exec cycleSystemState (exec cycleSystemState s)) in
  currentState s3 = currentState s /\
  calibrationData s3 = calibrationData s /\
  isCalibrated s3 = isCalibrated s /\
  shotCount s3 = shotCount s /\
  haptic_calls (trace s3) = haptic_calls (trace s).
Proof.
  intros s3. subst s3.
  destruct (cycleSystemState_frame s) as (A1 & A2 & A3 & A4).
  destruct (cycleSystemState_frame (exec cycleSystemState s)) as (B1 & B2 & B3 & B4).
  destruct (cycleSystemState_frame (exec cycleSystemState (exec cycleSystemState s)))
    as (C1 & C2 & C3 & C4).
  split.
  - rewrite !cycleSystemState_mode. destruct (currentState s); reflexivity.
  - repeat split; congruence.
Qed.

Lemma handleCalibration_mode (s : Sys) :
  currentState (exec handleCalibration s) =
  if eval detectShotMotion s && (10 <=? wrap_int (calibrationShots s + 1))
  then STANDBY else currentState s.
Proof.
  unfold handleCalibration, detectShotMotion, analyzeShotForm. open_monad. cbn.
  destruct (5.0 <? _)%float; cbn; [ | reflexivity ].
  destruct (10 <=? wrap_int (calibrationShots s + 1)); reflexivity.
Qed.

Lemma handleTraining_calibrated_mode (s : Sys) :
  isCalibrated s = true ->
  currentState (exec handleTraining s) = currentState s.
Proof.
  intros H. unfold handleTraining.
  rewrite exec_bind, eval_gets, exec_gets, H. cbn [negb].
  rewrite exec_bind.
  destruct (eval detectShotMotion s); unfold when.
  - unfold cout. rewrite !exec_bind, emit_mode, exec_modify, set_lastShotTime_mode,
      millis_mode, exec_modify, set_shotCount_mode, provideHapticFeedback_mode,
      analyzeShotForm_mode, detectShotMotion_mode.
    reflexivity.
  - rewrite exec_ret, detectShotMotion_mode. reflexivity.
Qed.

Lemma handleTraining_uncalibrated (s : Sys) :
  isCalibrated s = false ->
  exec handleTraining s =
  set_currentState STANDBY
    (set_trace (trace s ++ [Cout [Str "Please calibrate first!"]]) s).
Proof.
  intros H. unfold handleTraining.
  rewrite exec_bind, eval_gets, exec_gets, H. reflexivity.
Qed.

Lemma checkButtons_detector (s : Sys) :
  eval detectShotMotion (exec checkButtons s) = eval detectShotMotion s /\
  calibrationShots (exec checkButtons s) = calibrationShots s /\
  isCalibrated (exec checkButtons s) = isCalibrated s.
Proof.
  unfold checkButtons. open_monad. cbn.
  destruct (_ <? 50); repeat split.
Qed.

Lemma main_iteration_mode_eq (s : Sys) :
  currentState (exec main_iteration s) = mode_after_iteration s.
Proof.
  rewrite main_iteration_unfold. unfold sleep_for.
  rewrite emit_mode, monitorBattery_mode. unfold mode_after_iteration.
  pose proof (view_currentState _ _ (checkButtons_view s)) as Hb.
  destruct (checkButtons_detector s) as (_ & Hshots & Hcal).
  destruct (currentState s) eqn:Hs.
  - rewrite (view_currentState _ _ (handleStandby_view _)). congruence.
  - rewrite handleCalibration_mode, Hshots, Hb. reflexivity.
  - destruct (isCalibrated s) eqn:Hc.
    + rewrite handleTraining_calibrated_mode; congruence.
    + rewrite handleTraining_uncalibrated by congruence. reflexivity.
  - apply handleDataReview_mode.
Qed.

(** X4. The mode after an iteration of the main loop is a function of the
    mode before it and of three tests: STANDBY stays, DATA_REVIEW returns to
    STANDBY, TRAINING stays if calibrated and falls back to STANDBY if not,
    CALIBRATION ends exactly when a shot is detected that brings the counter
    to ten. No iteration enters CALIBRATION, TRAINING or DATA_REVIEW from
    another mode. *)
Theorem main_iteration_mode_transition (s : Sys) :
  currentState (exec main_iteration s) = mode_after_iteration s /\
  (currentState (exec main_iteration s) <> STANDBY ->
   currentState (exec main_iteration s) = currentState s).
Proof.
  pose proof (main_iteration_mode_eq s) as H.
  split; [ exact H | ].
  rewrite H. unfold mode_after_iteration.
  destruct (currentState s); try congruence.
  - destruct (_ && _); congruence.
  - destruct (isCalibrated s); congruence.
Qed.

(** ** A program that was never calibrated *)

Lemma preserves_emit_unscored c n t h (e : Effect) :
  is_haptic e = false ->
  preserves (unscored c n t h) (modify (fun s => set_trace (trace s ++ [e]) s)).
Proof.
  intros He. apply preserves_modify. intros s (H1 & H2 & H3 & H4 & H5).
  unfold unscored.
  change (trace (set_trace (trace s ++ [e]) s)) with (trace s ++ [e]).
  rewrite haptic_calls_app. cbn [haptic_calls filter]. rewrite He, app_nil_r.
  repeat split; assumption.
Qed.

Ltac unscored_leaf :=
  first
    [ apply preserves_emit_unscored; reflexivity
    | apply preserves_modify; intros ? H; exact H
    | intros ? H; exact H ].

Lemma unscored_kept c n t h :
  preserves (unscored c n t h) checkButtons /\
  preserves (unscored c n t h) handleStandby /\
  preserves (unscored c n t h) handleDataReview /\
  preserves (unscored c n t h) monitorBattery /\
  preserves (unscored c n t h) (sleep_for 10) /\
  preserves (unscored c n t h) cycleSystemState.
Proof.
  split; [ | split; [ | split; [ | split; [ | split ] ] ] ];
    unfold_program; preserves_steps; unscored_leaf.
Qed.

Lemma unscored_handleTraining c n t h :
  preserves (unscored c n t h) handleTraining.
Proof.
  intros s H. pose proof H as (_ & Hcal & _).
  rewrite (handleTraining_uncalibrated s Hcal).
  apply (preserves_modify _ (set_currentState STANDBY)); [ intros ? K; exact K | ].
  apply (preserves_emit_unscored c n t h (Cout [Str "Please calibrate first!"]));
    [ reflexivity | exact H ].
Qed.

Lemma unscored_iteration c n t h (s : Sys) :
  currentState s <> CALIBRATION ->
  unscored c n t h s -> unscored c n t h (exec main_iteration s).
Proof.
  intros Hmode H.
  destruct (unscored_kept c n t h) as (Hb & Hs & Hd & Hm & Hz & _).
  rewrite main_iteration_unfold.
  apply Hz, Hm.
  destruct (currentState s).
  - apply Hs, Hb, H.
  - congruence.
  - apply unscored_handleTraining, Hb, H.
  - apply Hd, Hb, H.
Qed.

Lemma unscored_recordShotOutcome c n t h (s : Sys) :
  unscored c n t h s ->
  unscored c n t (h ++ [SHOT_BUTTON_PULSE]) (exec recordShotOutcome s).
Proof.
  intros (H1 & H2 & H3 & H4 & H5).
  unfold recordShotOutcome, unscored. open_monad. cbn.
  rewrite !haptic_calls_app, H5. cbn. rewrite app_nil_r.
  repeat split; assumption.
Qed.

(** X3. Started outside CALIBRATION without a profile, the program never gets
    one and never scores a shot: in every state it reaches [isCalibrated] is
    false, the calibration data, the shot counter and the last shot time are
    what they were, and the only haptic commands issued are the pulses of the
    shot button. *)
Theorem uncalibrated_program_never_scores (s0 s : Sys) :
  reachable s0 s ->
  currentState s0 <> CALIBRATION ->
  isCalibrated s0 = false ->
  isCalibrated s = false /\
  calibrationData s = calibrationData s0 /\
  shotCount s = shotCount s0 /\
  lastShotTime s = lastShotTime s0 /\
  exists k : nat,
    haptic_calls (trace s) = haptic_calls (trace s0) ++ repeat SHOT_BUTTON_PULSE k.
Proof.
  intros Hreach Hmode Hcal.
  assert (H : currentState s <> CALIBRATION /\
              exists k : nat,
                unscored (calibrationData s0) (shotCount s0) (lastShotTime s0)
                  (haptic_calls (trace s0) ++ repeat SHOT_BUTTON_PULSE k) s).
  { induction Hreach as [ | s s' _ IH Hstep ].
    - split; [ exact Hmode | ]. exists 0%nat. cbn [repeat]. rewrite app_nil_r.
      unfold unscored. auto.
    - destruct IH as (Hm & k & Hk).
      split; [ exact (main_step_mode _ _ Hstep Hm) | ].
      destruct Hstep.
      + exists k. apply unscored_iteration; assumption.
      + exists k. destruct (unscored_kept (calibrationData s0) (shotCount s0)
                             (lastShotTime s0)
                             (haptic_calls (trace s0) ++ repeat SHOT_BUTTON_PULSE k))
          as (_ & _ & _ & _ & _ & Hc).
        apply Hc, Hk.
      + exists (S k).
        replace (repeat SHOT_BUTTON_PULSE (S k))
          with (repeat SHOT_BUTTON_PULSE k ++ [SHOT_BUTTON_PULSE])
          by (rewrite <- repeat_cons; reflexivity).
        rewrite app_assoc. apply unscored_recordShotOutcome, Hk. }
  destruct H as (_ & k & H1 & H2 & H3 & H4 & H5).
  repeat split; try assumption. exists k. exact H5.
Qed.

Lemma uncalibrated_program_never_scores_witness :
  reachable standby_demo pressed_and_run /\
  currentState standby_demo <> CALIBRATION /\
  isCalibrated standby_demo = false /\
  shotCount pressed_and_run = 0 /\
  haptic_calls (trace pressed_and_run) = [SHOT_BUTTON_PULSE].
Proof.
  assert (H : reachable standby_demo pressed_and_run).
  { apply reachable_run_loop.
    eapply reachable_step; [ | apply step_record ].
    eapply reachable_step; [ | apply step_cycle ].
    apply reachable_run_loop, reachable_start. }
  assert (Hm : currentState standby_demo <> CALIBRATION) by discriminate.
  destruct (uncalibrated_program_never_scores _ _ H Hm eq_refl)
    as (_ & _ & Hn & _ & _).
  split; [ exact H | ]. split; [ exact Hm | ]. split; [ reflexivity | ].
  split; [ exact Hn | vm_compute; reflexivity ].
Defined.

(** ** Feedback per shot *)

Lemma preserves_emit_scored n h (e : Effect) :
  is_haptic e = false ->
  preserves (scored n h) (modify (fun s => set_trace (trace s ++ [e]) s)).
Proof.
  intros He. apply preserves_modify. intros s (H1 & H2).
  unfold scored.
  change (trace (set_trace (trace s ++ [e]) s)) with (trace s ++ [e]).
  rewrite haptic_calls_app. cbn [haptic_calls filter]. rewrite He, app_nil_r.
  split; assumption.
Qed.

Ltac scored_leaf :=
  first
    [ apply preserves_emit_scored; reflexivity
    | apply preserves_modify; intros ? H; exact H
    | intros ? H; exact H ].

Lemma scored_kept n h :
  preserves (scored n h) checkButtons /\
  preserves (scored n h) handleStandby /\
  preserves (scored n h) monitorBattery /\
  preserves (scored n h) (sleep_for 10) /\
  preserves (scored n h) detectShotMotion /\
  preserves (scored n h) analyzeShotForm.
Proof.
  split; [ | split; [ | split; [ | split; [ | split ] ] ] ];
    unfold_program; preserves_steps; scored_leaf.
Qed.

Lemma profile_kept c b :
  preserves (profile_is c b) checkButtons /\
  preserves (profile_is c b) handleTraining /\
  preserves (profile_is c b) monitorBattery /\
  preserves (profile_is c b) (sleep_for 10).
Proof.
  split; [ | split; [ | split ] ];
    unfold_program; preserves_steps; same_leaf.
Qed.

Lemma calibrationShotAt_detect (s : Sys) :
  calibrationShotAt s =
  if eval detectShotMotion s
  then Some (eval analyzeShotForm (exec detectShotMotion s)) else None.
Proof.
  unfold calibrationShotAt, eval, exec. destruct (detectShotMotion s). reflexivity.
Qed.

Lemma handleCalibration_haptic (s : Sys) :
  haptic_calls (trace (exec handleCalibration s)) =
  haptic_calls (trace s) ++
  (if eval detectShotMotion s then [CALIBRATION_PULSE] else []).
Proof.
  unfold handleCalibration, detectShotMotion, analyzeShotForm. open_monad. cbn.
  destruct (5.0 <? _)%float; cbn.
  - destruct (10 <=? wrap_int (calibrationShots s + 1)); cbn;
      rewrite <- ?app_assoc, !haptic_calls_app; cbn; rewrite ?app_nil_r; reflexivity.
  - rewrite haptic_calls_app. cbn. reflexivity.
Qed.

Lemma scored_unchanged {A} (m : M A) (s : Sys) :
  (forall n h, preserves (scored n h) m) ->
  shotCount (exec m s) = shotCount s /\
  haptic_calls (trace (exec m s)) = haptic_calls (trace s).
Proof.
  intros H. apply (H (shotCount s) (haptic_calls (trace s)) s). split; reflexivity.
Qed.

Lemma iteration_around_handler (h : M unit) (s : Sys) :
  shotCount (exec (sleep_for 10) (exec monitorBattery (exec h (exec checkButtons s))))
  = shotCount (exec h (exec checkButtons s)) /\
  haptic_calls
    (trace (exec (sleep_for 10) (exec monitorBattery (exec h (exec checkButtons s)))))
  = haptic_calls (trace (exec h (exec checkButtons s))) /\
  shotCount (exec checkButtons s) = shotCount s /\
  haptic_calls (trace (exec checkButtons s)) = haptic_calls (trace s).
Proof.
  destruct (scored_unchanged (sleep_for 10)
              (exec monitorBattery (exec h (exec checkButtons s)))
              (fun n k => proj1 (proj2 (proj2 (proj2 (scored_kept n k)))))) as [A1 A2].
  destruct (scored_unchanged monitorBattery (exec h (exec checkButtons s))
              (fun n k => proj1 (proj2 (proj2 (scored_kept n k))))) as [B1 B2].
  destruct (scored_unchanged checkButtons s (fun n k => proj1 (scored_kept n k)))
    as [C1 C2].
  repeat split; congruence.
Qed.

Lemma calibration_iteration_haptic (s : Sys) :
  currentState s = CALIBRATION ->
  haptic_calls (trace (exec main_iteration s)) =
  haptic_calls (trace s) ++
  match loopCalibrationShot s with Some _ => [CALIBRATION_PULSE] | None => [] end.
Proof.
  intros Hmode.
  destruct (iteration_around_handler handleCalibration s) as (_ & H1 & _ & H2).
  rewrite main_iteration_unfold, Hmode, H1, handleCalibration_haptic, H2.
  unfold loopCalibrationShot. rewrite Hmode, calibrationShotAt_detect.
  destruct (eval detectShotMotion (exec checkButtons s)); reflexivity.
Qed.

Lemma standby_iteration_haptic (s : Sys) :
  currentState s = STANDBY ->
  haptic_calls (trace (exec main_iteration s)) = haptic_calls (trace s).
Proof.
  intros Hmode.
  destruct (iteration_around_handler handleStandby s) as (_ & H1 & _ & H2).
  destruct (scored_unchanged handleStandby (exec checkButtons s)
              (fun n k => proj1 (proj2 (scored_kept n k)))) as [_ H3].
  rewrite main_iteration_unfold, Hmode, H1, H3, H2. reflexivity.
Qed.

Lemma calibration_pulses (n : nat) : forall s : Sys,
  currentState s = CALIBRATION \/ currentState s = STANDBY ->
  haptic_calls (trace (run_loop n s)) =
  haptic_calls (trace s) ++ repeat CALIBRATION_PULSE (length (calibrationShotsOf n s)) /\
  (length (calibrationShotsOf n s) <= n)%nat.
Proof.
  induction n as [ | n IH ]; intros s Hmode; cbn [run_loop calibrationShotsOf].
  - cbn. rewrite app_nil_r. split; [ reflexivity | lia ].
  - assert (Hnext : currentState (exec main_iteration s) = CALIBRATION \/
                    currentState (exec main_iteration s) = STANDBY).
    { rewrite main_iteration_mode_eq. unfold mode_after_iteration.
      destruct Hmode as [ -> | -> ]; [ destruct (_ && _); auto | auto ]. }
    destruct (IH _ Hnext) as [Hh Hl].
    destruct Hmode as [ Hc | Hs ].
    + rewrite Hh, (calibration_iteration_haptic s Hc).
      destruct (loopCalibrationShot s); cbn [length repeat].
      * rewrite <- app_assoc. cbn [app]. split; [ reflexivity | lia ].
      * rewrite app_nil_r. split; [ reflexivity | lia ].
    + rewrite Hh, (standby_iteration_haptic s Hs).
      unfold loopCalibrationShot. rewrite Hs. split; [ reflexivity | lia ].
Qed.

(** X7. During a calibration run the upper-arm motor is pulsed (STRONG, 100 ms)
    once for each recorded shot and no other haptic command is issued; an
    iteration records at most one shot, so a run takes at least ten
    iterations to complete. *)
Theorem calibration_pulse_per_shot (n : nat) (s : Sys) :
  currentState s = CALIBRATION ->
  haptic_calls (trace (run_loop n s)) =
  haptic_calls (trace s) ++ repeat CALIBRATION_PULSE (length (calibrationShotsOf n s)) /\
  (length (calibrationShotsOf n s) <= n)%nat /\
  ((n < 10)%nat -> calibration_started s -> currentState (run_loop n s) = CALIBRATION).
Proof.
  intros Hmode.
  destruct (calibration_pulses n s (or_introl Hmode)) as [Hh Hl].
  split; [ exact Hh | ]. split; [ exact Hl | ].
  intros Hn Hstart.
  destruct (calibration_run_from_start n s Hstart)
    as [ ((Hst & _) & _) | (Hten & _) ]; [ exact Hst | lia ].
Qed.

Lemma calibration_pulse_per_shot_witness :
  currentState calibration_demo = CALIBRATION /\
  length (calibrationShotsOf 12 calibration_demo) = 10%nat /\
  haptic_calls (trace (run_loop 12 calibration_demo)) = repeat CALIBRATION_PULSE 10.
Proof.
  assert (H : currentState calibration_demo = CALIBRATION) by reflexivity.
  assert (Hl : length (calibrationShotsOf 12 calibration_demo) = 10%nat)
    by (vm_compute; reflexivity).
  destruct (calibration_pulse_per_shot 12 calibration_demo H) as (Hh & _ & _).
  rewrite Hl in Hh.
  split; [ exact H | ]. split; [ exact Hl | exact Hh ].
Defined.

Lemma shotCount_emit (e : Effect) (s : Sys) : shotCount (exec (emit e) s) = shotCount s.
Proof. reflexivity. Qed.

Lemma shotCount_millis (s : Sys) : shotCount (exec millis s) = shotCount s.
Proof. reflexivity. Qed.

Lemma shotCount_set_lastShotTime (v : Z) (s : Sys) :
  shotCount (set_lastShotTime v s) = shotCount s.
Proof. reflexivity. Qed.

Lemma shotCount_set_shotCount (v : Z) (s : Sys) : shotCount (set_shotCount v s) = v.
Proof. reflexivity. Qed.

Lemma shotCount_detectShotMotion (s : Sys) :
  shotCount (exec detectShotMotion s) = shotCount s.
Proof. reflexivity. Qed.

Lemma shotCount_analyzeShotForm (s : Sys) :
  shotCount (exec analyzeShotForm s) = shotCount s.
Proof. reflexivity. Qed.

Lemma shotCount_provideHapticFeedback (d : FreeThrowData) (s : Sys) :
  shotCount (exec (provideHapticFeedback d) s) = shotCount s.
Proof.
  unfold provideHapticFeedback. open_monad.
  destruct (ELBOW_ANGLE_TOLERANCE <? _)%float; [ reflexivity | ].
  destruct (WRIST_ANGLE_TOLERANCE <? _)%float; reflexivity.
Qed.

Lemma handleTraining_calibrated_count (s : Sys) :
  isCalibrated s = true ->
  shotCount (exec handleTraining s) =
    (if eval detectShotMotion s then wrap_int (shotCount s + 1) else shotCount s) /\
  length (haptic_calls (trace (exec handleTraining s))) =
    (length (haptic_calls (trace s)) + (if eval detectShotMotion s then 1 else 0))%nat.
Proof.
  intros Hcal. destruct (eval detectShotMotion s) eqn:Hdet.
  - split.
    + unfold handleTraining.
      rewrite exec_bind, eval_gets, exec_gets, Hcal. cbn [negb].
      rewrite exec_bind, Hdet. unfold when, cout.
      rewrite !exec_bind, shotCount_emit, exec_modify, shotCount_set_lastShotTime,
        shotCount_millis, exec_modify, shotCount_set_shotCount,
        shotCount_provideHapticFeedback, shotCount_analyzeShotForm,
        shotCount_detectShotMotion.
      reflexivity.
    + destruct (handleTraining_scored_shot s Hcal Hdet) as [e He].
      rewrite He, length_app. reflexivity.
  - assert (Hexec : exec handleTraining s = exec detectShotMotion s).
    { unfold handleTraining.
      rewrite exec_bind, eval_gets, exec_gets, Hcal. cbn [negb].
      rewrite exec_bind, Hdet. unfold when. apply exec_ret. }
    rewrite Hexec, shotCount_detectShotMotion, trace_detectShotMotion.
    split; [ reflexivity | lia ].
Qed.

Lemma training_iteration (s : Sys) :
  currentState s = TRAINING ->
  isCalibrated s = true ->
  currentState (exec main_iteration s) = TRAINING /\
  calibrationData (exec main_iteration s) = calibrationData s /\
  isCalibrated (exec main_iteration s) = true /\
  ((shotCount (exec main_iteration s) = shotCount s /\
    length (haptic_calls (trace (exec main_iteration s)))
    = length (haptic_calls (trace s)))
   \/
   (shotCount (exec main_iteration s) = wrap_int (shotCount s + 1) /\
    length (haptic_calls (trace (exec main_iteration s)))
    = S (length (haptic_calls (trace s))))).
Proof.
  intros Hmode Hcal.
  split.
  { rewrite main_iteration_mode_eq. unfold mode_after_iteration.
    rewrite Hmode, Hcal. reflexivity. }
  assert (Hprofile : profile_is (calibrationData s) true (exec main_iteration s)).
  { destruct (profile_kept (calibrationData s) true) as (Hb & Ht & Hm & Hz).
    rewrite main_iteration_unfold, Hmode.
    apply Hz, Hm, Ht, Hb. split; [ reflexivity | exact Hcal ]. }
  destruct Hprofile as [Hp1 Hp2].
  split; [ exact Hp1 | ]. split; [ exact Hp2 | ].
  destruct (iteration_around_handler handleTraining s) as (A1 & A2 & A3 & A4).
  destruct (checkButtons_detector s) as (_ & _ & Hc).
  destruct (handleTraining_calibrated_count (exec checkButtons s)) as [B1 B2];
    [ congruence | ].
  rewrite main_iteration_unfold, Hmode, A1, A2, B1, B2, A3, A4.
  destruct (eval detectShotMotion (exec checkButtons s)).
  - right. split; [ reflexivity | lia ].
  - left. split; [ reflexivity | lia ].
Qed.

(** X8. Once calibrated, training stays in TRAINING mode and leaves the profile
    alone; over any number of iterations the shot counter advances by the
    number of haptic commands issued, at most one per iteration: every
    counted shot got exactly one feedback command (as long as the [int]
    counter does not overflow). *)
Theorem training_counts_feedback (n : nat) (s : Sys) :
  currentState s = TRAINING ->
  isCalibrated s = true ->
  0 <= shotCount s ->
  shotCount s + Z.of_nat n < 2 ^ 31 ->
  currentState (run_loop n s) = TRAINING /\
  calibrationData (run_loop n s) = calibrationData s /\
  isCalibrated (run_loop n s) = true /\
  exists k : nat,
    (k <= n)%nat /\
    shotCount (run_loop n s) = shotCount s + Z.of_nat k /\
    length (haptic_calls (trace (run_loop n s)))
    = (length (haptic_calls (trace s)) + k)%nat.
Proof.
  revert s. induction n as [ | n IH ]; intros s Hmode Hcal H0 Hmax; cbn [run_loop].
  - repeat split; trivial. exists 0%nat. repeat split; lia.
  - destruct (training_iteration s Hmode Hcal) as (Hm & Hp & Hc & Hcount).
    assert (Hstep : exists j : nat,
               (j <= 1)%nat /\
               shotCount (exec main_iteration s) = shotCount s + Z.of_nat j /\
               length (haptic_calls (trace (exec main_iteration s)))
               = (length (haptic_calls (trace s)) + j)%nat).
    { destruct Hcount as [ [H1 H2] | [H1 H2] ].
      - exists 0%nat. repeat split; lia.
      - exists 1%nat. rewrite wrap_int_small in H1 by lia. repeat split; lia. }
    destruct Hstep as (j & Hj & Hsc & Hlen).
    destruct (IH (exec main_iteration s) Hm Hc) as (I1 & I2 & I3 & k & Hk & Hks & Hkl);
      [ lia | lia | ].
    split; [ exact I1 | ]. split; [ congruence | ]. split; [ exact I3 | ].
    exists (j + k)%nat. repeat split; lia.
Qed.

Lemma training_counts_feedback_witness :
  currentState training_demo = TRAINING /\
  isCalibrated training_demo = true /\
  shotCount (run_loop 4 training_demo) = 4 /\
  length (haptic_calls (trace (run_loop 4 training_demo))) = 4%nat /\
  currentState (run_loop 4 training_demo) = TRAINING.
Proof.
  destruct (training_counts_feedback 4 training_demo eq_refl eq_refl)
    as (Hm & _ & _ & k & _ & _ & _); [ vm_compute; discriminate | reflexivity | ].
  split; [ reflexivity | ]. split; [ reflexivity | ].
  split; [ vm_compute; reflexivity | ]. split; [ vm_compute; reflexivity | exact Hm ].
Defined.

(** ** Ranges of the simulated readings *)

Lemma rem_range (r : Z) (m : nat) :
  0 <= r -> (0 < m)%nat -> 0 <= Z.rem r (Z.of_nat m) < Z.of_nat m.
Proof. intros H Hm. apply Z.rem_bound_pos; lia. Qed.

Lemma elbow_range (a : Z) :
  0 <= a < Z.of_nat 20 ->
  ((80 <=? elbow_of_residue a) && (elbow_of_residue a <=? 99))%float = true.
Proof.
  apply (forall_below
           (fun a => ((80 <=? elbow_of_residue a) && (elbow_of_residue a <=? 99))%float)).
  vm_compute. reflexivity.
Qed.

Lemma wrist_range (a : Z) :
  0 <= a < Z.of_nat 10 ->
  ((40 <=? wrist_of_residue a) && (wrist_of_residue a <=? 49))%float = true.
Proof.
  apply (forall_below
           (fun a => ((40 <=? wrist_of_residue a) && (wrist_of_residue a <=? 49))%float)).
  vm_compute. reflexivity.
Qed.

Lemma timing_range (a : Z) :
  0 <= a < Z.of_nat 100 ->
  ((1.5 <=? timing_of_residue a) && (timing_of_residue a <? 1.6))%float = true.
Proof.
  apply (forall_below
           (fun a => ((1.5 <=? timing_of_residue a) && (timing_of_residue a <? 1.6))%float)).
  vm_compute. reflexivity.
Qed.

Lemma follow_range (a : Z) :
  0 <= a < Z.of_nat 40 ->
  ((0.8 <=? follow_of_residue a) && (follow_of_residue a <? 1.2))%float = true.
Proof.
  apply (forall_below
           (fun a => ((0.8 <=? follow_of_residue a) && (follow_of_residue a <? 1.2))%float)).
  vm_compute. reflexivity.
Qed.

Lemma peak_range (a : Z) :
  0 <= a < Z.of_nat 10 ->
  ((15 <=? peak_of_residue a) && (peak_of_residue a <=? 24))%float = true.
Proof.
  apply (forall_below
           (fun a => ((15 <=? peak_of_residue a) && (peak_of_residue a <=? 24))%float)).
  vm_compute. reflexivity.
Qed.

(** X1. With non-negative draws every analysed shot has an elbow angle within
    80..99, a wrist angle within 40..49, a release timing from 1.5 to below
    1.6, a follow-through from 0.8 to below 1.2 and a peak acceleration
    within 15..24. *)
Theorem analyzeShotForm_ranges (s : Sys) :
  nonneg_draws s ->
  let d := eval analyzeShotForm s in
  ((80 <=? elbowAngle d) && (elbowAngle d <=? 99))%float = true /\
  ((40 <=? wristAngle d) && (wristAngle d <=? 49))%float = true /\
  ((1.5 <=? releaseTiming d) && (releaseTiming d <? 1.6))%float = true /\
  ((0.8 <=? followThrough d) && (followThrough d <? 1.2))%float = true /\
  ((15 <=? peakAcceleration d) && (peakAcceleration d <=? 24))%float = true.
Proof.
  intros Hpos d. subst d.
  split; [ | split; [ | split; [ | split ] ] ].
  - exact (elbow_range _ (rem_range _ 20 (Hpos _) ltac:(lia))).
  - exact (wrist_range _ (rem_range _ 10 (Hpos _) ltac:(lia))).
  - exact (timing_range _ (rem_range _ 100 (Hpos _) ltac:(lia))).
  - exact (follow_range _ (rem_range _ 40 (Hpos _) ltac:(lia))).
  - exact (peak_range _ (rem_range _ 10 (Hpos _) ltac:(lia))).
Qed.

Lemma demo_draws_nonneg : nonneg_draws standby_demo.
Proof.
  intros k. change (0 <= demo_rand k). unfold demo_rand.
  destruct (k mod 12)%nat as [ | [ | [ | [ | [ | [ | [ | ] ] ] ] ] ] ]; lia.
Qed.

Lemma analyzeShotForm_ranges_witness :
  nonneg_draws standby_demo /\
  ((80 <=? elbowAngle (eval analyzeShotForm standby_demo))
   && (elbowAngle (eval analyzeShotForm standby_demo) <=? 99))%float = true.
Proof.
  split; [ exact demo_draws_nonneg | ].
  exact (proj1 (analyzeShotForm_ranges standby_demo demo_draws_nonneg)).
Defined.

(** ** The battery monitor *)

Lemma voltage_above_warning (a : Z) :
  -10 < a < 10 ->
  ((3.6 <? voltage_of_residue a) && (voltage_of_residue a <? 3.8)
   && negb (voltage_of_residue a <? 3.2))%float = true.
Proof.
  intros Ha.
  replace a with ((a + 9) - 9) by lia.
  apply (forall_below
           (fun b => ((3.6 <? voltage_of_residue (b - 9))
                      && (voltage_of_residue (b - 9) <? 3.8)
                      && negb (voltage_of_residue (b - 9) <? 3.2))%float) 19);
    [ vm_compute; reflexivity | lia ].
Qed.

Lemma rem_10_range (r : Z) : -10 < Z.rem r 10 < 10.
Proof. pose proof (Z.rem_bound_abs r 10 ltac:(lia)). lia. Qed.

(** X2. [monitorBattery] never prints the low-battery warning, whatever the
    generator returns: the simulated voltage stays between 3.6 and 3.8, above
    the 3.2 of the warning. A call that finds no more than 30000 ms elapsed
    since the last check prints nothing and draws nothing; a call that finds
    more prints the voltage, consumes one draw and restarts the interval. *)
Theorem monitorBattery_never_warns (s : Sys) :
  let now := wrap_ulong (clock_src s (clock_reads s)) in
  let s' := exec monitorBattery s in
  ((30000 <? ulong_sub now (lastBatteryCheck s)) = false ->
     trace s' = trace s /\ rand_calls s' = rand_calls s /\
     lastBatteryCheck s' = lastBatteryCheck s) /\
  ((30000 <? ulong_sub now (lastBatteryCheck s)) = true ->
     exists v : double,
       trace s' = trace s ++ [Cout [Str "Battery voltage: "; Dbl v; Str "V"]] /\
       (3.6 <? v)%float = true /\ (v <? 3.8)%float = true /\
       rand_calls s' = S (rand_calls s) /\ lastBatteryCheck s' = now) /\
  (~ In (Cout [Str "Low battery warning!"]) (trace s) ->
   ~ In (Cout [Str "Low battery warning!"]) (trace s')).
Proof.
  intros now s'. subst now s'.
  pose proof (voltage_above_warning _ (rem_10_range (rand_src s (rand_calls s)))) as Hv.
  apply andb_prop in Hv. destruct Hv as [Hv Hno].
  apply andb_prop in Hv. destruct Hv as [Hlo Hhi].
  apply negb_true_iff in Hno.
  unfold voltage_of_residue in Hlo, Hhi, Hno.
  unfold monitorBattery. open_monad. cbn.
  destruct (30000 <? _); cbn.
  - rewrite Hno. cbn.
    split; [ discriminate | ]. split.
    + intros _. eexists. repeat split; [ exact Hlo | exact Hhi ].
    + intros Hnot Hin. apply in_app_or in Hin.
      destruct Hin as [ Hin | [ Hin | [] ] ]; [ exact (Hnot Hin) | discriminate ].
  - split; [ auto | ]. split; [ discriminate | auto ].
Qed.

(** ** Exact averages *)

Lemma same_double_eq (x y : double) : same_double x y = true -> x = y.
Proof. apply FloatAxioms.Leibniz.eqb_spec. Qed.

Lemma elbow_integral (a : Z) :
  0 <= a < Z.of_nat 20 -> elbow_of_residue a = double_of_int (80 + a).
Proof.
  intros Ha. apply same_double_eq.
  apply (forall_below
           (fun a => same_double (elbow_of_residue a) (double_of_int (80 + a))) 20);
    [ vm_compute; reflexivity | exact Ha ].
Qed.

Lemma wrist_integral (a : Z) :
  0 <= a < Z.of_nat 10 -> wrist_of_residue a = double_of_int (40 + a).
Proof.
  intros Ha. apply same_double_eq.
  apply (forall_below
           (fun a => same_double (wrist_of_residue a) (double_of_int (40 + a))) 10);
    [ vm_compute; reflexivity | exact Ha ].
Qed.

(** Adding a value below 100 to an integer below 1000 is exact. *)
Lemma double_add_exact (S e : Z) :
  0 <= S < Z.of_nat 1000 -> 0 <= e < Z.of_nat 100 ->
  (double_of_int S + double_of_int e)%float = double_of_int (S + e).
Proof.
  intros HS He. apply same_double_eq.
  apply (forall_below
           (fun y => same_double (double_of_int S + double_of_int y)%float
                       (double_of_int (S + y))) 100); [ | exact He ].
  apply (forall_below
           (fun x => forallb
                       (fun y => same_double (double_of_int x + double_of_int y)%float
                                   (double_of_int (x + y)))
                       (map Z.of_nat (seq 0 100))) 1000); [ | exact HS ].
  vm_compute. reflexivity.
Qed.

Lemma fold_add_exact (ks : list Z) : forall S : Z,
  0 <= S ->
  S + 100 * Z.of_nat (length ks) <= 1000 ->
  Forall (fun k => 0 <= k < 100) ks ->
  fold_left PrimFloat.add (map double_of_int ks) (double_of_int S)
  = double_of_int (S + sum_Z ks).
Proof.
  induction ks as [ | k ks IH ]; intros S HS Hlen Hall; cbn [map fold_left sum_Z fold_right].
  - rewrite Z.add_0_r. reflexivity.
  - inversion Hall as [ | ? ? Hk Hks ]; subst.
    cbn [length] in Hlen.
    rewrite double_add_exact by lia.
    rewrite IH by (try assumption; lia).
    f_equal. unfold sum_Z. lia.
Qed.

Lemma sum_doubles_exact (ks : list Z) :
  (length ks <= 10)%nat ->
  Forall (fun k => 0 <= k < 100) ks ->
  sum_doubles (map double_of_int ks) = double_of_int (sum_Z ks).
Proof.
  intros Hlen Hall. unfold sum_doubles.
  change 0%float with (double_of_int 0).
  rewrite fold_add_exact by (try assumption; lia).
  reflexivity.
Qed.

Lemma analyzeShotForm_integral (s : Sys) :
  nonneg_draws s ->
  exists e w : Z, integral_shot e w (eval analyzeShotForm s).
Proof.
  intros Hpos.
  pose proof (rem_range _ 20 (Hpos (rand_calls s)) ltac:(lia)) as H1.
  pose proof (rem_range _ 10 (Hpos (S (rand_calls s))) ltac:(lia)) as H2.
  exists (80 + Z.rem (rand_src s (rand_calls s)) (Z.of_nat 20)),
         (40 + Z.rem (rand_src s (S (rand_calls s))) (Z.of_nat 10)).
  split; [ lia | ]. split; [ lia | ]. split.
  - exact (elbow_integral _ H1).
  - exact (wrist_integral _ H2).
Qed.

Lemma environment_kept (rnd clk : nat -> Z) :
  preserves (same_environment rnd clk) checkButtons /\
  preserves (same_environment rnd clk) detectShotMotion.
Proof. split; unfold_program; preserves_steps; same_leaf. Qed.

Lemma nonneg_draws_kept {A} (m : M A) (s : Sys) :
  (forall rnd clk, preserves (same_environment rnd clk) m) ->
  nonneg_draws s -> nonneg_draws (exec m s).
Proof.
  intros Hm Hpos k.
  destruct (Hm (rand_src s) (clock_src s) s (conj eq_refl eq_refl)) as [Hr _].
  rewrite Hr. apply Hpos.
Qed.

Lemma calibration_shots_integral (n : nat) : forall s : Sys,
  nonneg_draws s ->
  Forall (fun d => exists e w : Z, integral_shot e w d) (calibrationShotsOf n s).
Proof.
  induction n as [ | n IH ]; intros s Hpos; cbn [calibrationShotsOf].
  - constructor.
  - pose proof (IH _ (nonneg_draws_kept main_iteration s main_iteration_environment Hpos))
      as Htail.
    destruct (loopCalibrationShot s) as [ d | ] eqn:Hshot; [ | exact Htail ].
    constructor; [ | exact Htail ].
    unfold loopCalibrationShot in Hshot.
    destruct (currentState s); try discriminate.
    rewrite calibrationShotAt_detect in Hshot.
    destruct (eval detectShotMotion (exec checkButtons s)); [ | discriminate ].
    injection Hshot as <-.
    apply analyzeShotForm_integral.
    apply (nonneg_draws_kept detectShotMotion);
      [ intros rnd clk; apply environment_kept | ].
    apply (nonneg_draws_kept checkButtons);
      [ intros rnd clk; apply environment_kept | exact Hpos ].
Qed.

Lemma integral_angles (shots : list FreeThrowData) :
  Forall (fun d => exists e w : Z, integral_shot e w d) shots ->
  exists es ws : list Z,
    length es = length shots /\ length ws = length shots /\
    Forall (fun e => 80 <= e <= 99) es /\ Forall (fun w => 40 <= w <= 49) ws /\
    map elbowAngle shots = map double_of_int es /\
    map wristAngle shots = map double_of_int ws.
Proof.
  induction 1 as [ | d shots (e & w & He & Hw & Hde & Hdw) _ IH ].
  - exists [], []. repeat split; constructor.
  - destruct IH as (es & ws & L1 & L2 & F1 & F2 & M1 & M2).
    exists (e :: es), (w :: ws). cbn [length map].
    repeat split; try congruence; constructor; assumption.
Qed.

Lemma sum_Z_bounds (lo hi : Z) (l : list Z) :
  Forall (fun k => lo <= k <= hi) l ->
  lo * Z.of_nat (length l) <= sum_Z l <= hi * Z.of_nat (length l).
Proof.
  induction 1 as [ | k l Hk _ IH ]; cbn [sum_Z fold_right length].
  - lia.
  - unfold sum_Z in IH. lia.
Qed.

Lemma mean_of_integers_bounds (lo hi : Z) (E : Z) :
  (lo, hi) = (80, 99) \/ (lo, hi) = (40, 49) ->
  10 * lo <= E <= 10 * hi ->
  ((double_of_int lo <=? double_of_int E / 10.0)
   && (double_of_int E / 10.0 <=? double_of_int hi))%float = true.
Proof.
  intros Hcase HE.
  assert (Hall : forall lo hi : Z,
             forallb (fun b => ((double_of_int lo <=? double_of_int (b + 10 * lo) / 10.0)
                                && (double_of_int (b + 10 * lo) / 10.0
                                    <=? double_of_int hi))%float)
               (map Z.of_nat (seq 0 (Z.to_nat (10 * (hi - lo) + 1)))) = true ->
             0 <= hi - lo ->
             ((double_of_int lo <=? double_of_int E / 10.0)
              && (double_of_int E / 10.0 <=? double_of_int hi))%float = true
             \/ ~ (10 * lo <= E <= 10 * hi)).
  { intros l h Hcheck Hlh.
    destruct (Z_le_dec (10 * l) E); [ | right; lia ].
    destruct (Z_le_dec E (10 * h)); [ | right; lia ].
    left. replace E with ((E - 10 * l) + 10 * l) by lia.
    apply (forall_below _ _ Hcheck). lia. }
  destruct Hcase as [ [= -> ->] | [= -> ->] ].
  - destruct (Hall 80 99) as [ H | H ]; [ vm_compute; reflexivity | lia | exact H | lia ].
  - destruct (Hall 40 49) as [ H | H ]; [ vm_compute; reflexivity | lia | exact H | lia ].
Qed.

(** X10. With non-negative draws the elbow and wrist angles of the recorded
    shots are whole degrees (80..99 and 40..49), their sums are accumulated
    without rounding, and the stored averages are those integer sums divided
    by 10.0: they lie within 80..99 and 40..49. *)
Theorem calibrated_averages_exact (n : nat) (s : Sys) :
  calibration_started s ->
  nonneg_draws s ->
  length (calibrationShotsOf n s) = 10%nat ->
  let shots := calibrationShotsOf n s in
  let cal := calibrationData (run_loop n s) in
  exists es ws : list Z,
    map elbowAngle shots = map double_of_int es /\
    map wristAngle shots = map double_of_int ws /\
    avgElbowAngle cal = (double_of_int (sum_Z es) / 10.0)%float /\
    avgWristAngle cal = (double_of_int (sum_Z ws) / 10.0)%float /\
    ((80 <=? avgElbowAngle cal) && (avgElbowAngle cal <=? 99))%float = true /\
    ((40 <=? avgWristAngle cal) && (avgWristAngle cal <=? 49))%float = true.
Proof.
  intros Hstart Hpos Hten shots cal. subst shots cal.
  destruct (integral_angles _ (calibration_shots_integral n s Hpos))
    as (es & ws & L1 & L2 & F1 & F2 & M1 & M2).
  exists es, ws.
  destruct (calibration_run_from_start n s Hstart)
    as [ ((_ & Hlt & _) & _) | (_ & Hv) ]; [ lia | ].
  unfold calibration_view in Hv. injection Hv as _ Hcd _ _ _ _ _.
  assert (He : avgElbowAngle (calibrationData (run_loop n s))
               = (double_of_int (sum_Z es) / 10.0)%float).
  { rewrite Hcd. cbn. rewrite M1, sum_doubles_exact; [ reflexivity | lia | ].
    apply (Forall_impl _ (P := fun e => 80 <= e <= 99)); [ intros; lia | exact F1 ]. }
  assert (Hw : avgWristAngle (calibrationData (run_loop n s))
               = (double_of_int (sum_Z ws) / 10.0)%float).
  { rewrite Hcd. cbn. rewrite M2, sum_doubles_exact; [ reflexivity | lia | ].
    apply (Forall_impl _ (P := fun e => 40 <= e <= 49)); [ intros; lia | exact F2 ]. }
  pose proof (sum_Z_bounds 80 99 es F1) as B1.
  pose proof (sum_Z_bounds 40 49 ws F2) as B2.
  split; [ exact M1 | ]. split; [ exact M2 | ].
  split; [ exact He | ]. split; [ exact Hw | ].
  rewrite He, Hw. split.
  - apply (mean_of_integers_bounds 80 99); [ auto | lia ].
  - apply (mean_of_integers_bounds 40 49); [ auto | lia ].
Qed.

Lemma calibration_demo_nonneg : nonneg_draws calibration_demo.
Proof. exact demo_draws_nonneg. Qed.

Lemma calibrated_averages_exact_witness :
  calibration_started calibration_demo /\
  nonneg_draws calibration_demo /\
  length (calibrationShotsOf 10 calibration_demo) = 10%nat /\
  avgElbowAngle (calibrationData (run_loop 10 calibration_demo)) = 90%float /\
  ((80 <=? avgElbowAngle (calibrationData (run_loop 10 calibration_demo)))
   && (avgElbowAngle (calibrationData (run_loop 10 calibration_demo)) <=? 99))%float
  = true.
Proof.
  assert (Hstart : calibration_started calibration_demo) by (repeat split).
  assert (Hten : length (calibrationShotsOf 10 calibration_demo) = 10%nat)
    by (vm_compute; reflexivity).
  destruct (calibrated_averages_exact 10 calibration_demo Hstart
              calibration_demo_nonneg Hten)
    as (es & ws & _ & _ & _ & _ & Hb & _).
  split; [ exact Hstart | ]. split; [ exact calibration_demo_nonneg | ].
  split; [ exact Hten | ]. split; [ vm_compute; reflexivity | exact Hb ].
Defined.

(** ** The end of a run *)

(** X11. The iteration that records the tenth shot hands the mode back to
    STANDBY and clears the run's counter and sums, and they stay cleared:
    were calibration entered again, the new run would start from nothing and
    average its own ten shots only. *)
Theorem calibration_completion_resets (n : nat) (s : Sys) :
  calibration_started s ->
  length (calibrationShotsOf n s) = 10%nat ->
  currentState (run_loop n s) = STANDBY /\
  calibrationShots (run_loop n s) = 0 /\
  elbowSum (run_loop n s) = 0%float /\
  wristSum (run_loop n s) = 0%float /\
  timingSum (run_loop n s) = 0%float /\
  calibration_started (set_currentState CALIBRATION (run_loop n s)).
Proof.
  intros Hstart Hten.
  destruct (calibration_run_from_start n s Hstart)
    as [ ((_ & Hlt & _) & _) | (_ & Hv) ]; [ lia | ].
  unfold calibration_view in Hv. injection Hv as H1 _ _ H4 H5 H6 H7.
  unfold calibration_started. cbn.
  repeat split; assumption.
Qed.

Lemma calibration_completion_resets_witness :
  calibration_started calibration_demo /\
  length (calibrationShotsOf 10 calibration_demo) = 10%nat /\
  currentState (run_loop 10 calibration_demo) = STANDBY /\
  calibrationShots (run_loop 10 calibration_demo) = 0.
Proof.
  assert (Hstart : calibration_started calibration_demo) by (repeat split).
  assert (Hten : length (calibrationShotsOf 10 calibration_demo) = 10%nat)
    by (vm_compute; reflexivity).
  destruct (calibration_completion_resets 10 calibration_demo Hstart Hten)
    as (H1 & H2 & _).
  repeat split; assumption.
Defined.

(** * Properties of the haptic controller *)

Import HapticController.

(** ** The intensity invariant *)

















(** ** The overheat interlock *)

Lemma stop_motor_idle (m : HapticMotor) : idle (stop_motor m) = true.
Proof. reflexivity. Qed.

Lemma emergencyStop_idle (motors : list HapticMotor) :
  Forall (fun m => idle m = true) (emergencyStop motors).
Proof. apply Forall_map, Forall_forall. intros m _. apply stop_motor_idle. Qed.

Lemma emergencyStop_idempotent (motors : list HapticMotor) :
  emergencyStop (emergencyStop motors) = emergencyStop motors.
Proof. unfold emergencyStop. rewrite map_map. reflexivity. Qed.

Lemma call_while_overheating f (c : Call) (motors : list HapticMotor) :
  while_overheating c ->
  Forall (fun m => idle m = true) motors ->
  Forall (fun m => idle m = true) (call f c motors).
Proof.
  intros Hc H. destruct c as [ o z pat intensity dur now | o now | ]; cbn in *.
  - subst o. exact H.
  - subst o. apply emergencyStop_idle.
  - apply emergencyStop_idle.
Qed.

(** C8. After [emergencyStop()] every motor is Idle, from whatever state it
    is called, and calling it again changes nothing; while the overheat guard
    stays tripped, every later trigger is rejected, so that after any
    sequence of calls made in that condition all motors are still Idle. *)
Theorem emergencyStop_holds_while_overheating
  (f : HapticPattern -> Z -> Z -> Z -> Z) (cs : list Call)
  (motors : list HapticMotor) :
  Forall while_overheating cs ->
  Forall (fun m => idle m = true) (emergencyStop motors) /\
  Forall (fun m => idle m = true) (calls f cs (emergencyStop motors)) /\
  emergencyStop (emergencyStop motors) = emergencyStop motors /\
  (forall z pat intensity dur now,
     trigger true z pat intensity dur now (emergencyStop motors) = emergencyStop motors).
Proof.
  intros Hcs.
  split; [ apply emergencyStop_idle | ].
  split; [ | split; [ apply emergencyStop_idempotent | reflexivity ] ].
  generalize (emergencyStop_idle motors).
  generalize (emergencyStop motors) as ms.
  induction Hcs as [ | c cs Hc _ IH ]; intros ms Hms; cbn.
  - exact Hms.
  - apply IH. apply call_while_overheating; assumption.
Qed.

Lemma emergencyStop_holds_while_overheating_witness :
  Forall while_overheating calls_while_overheating /\
  Forall (fun m => idle m = false) running_motors /\
  Forall (fun m => idle m = true)
    (calls ramp_level calls_while_overheating (emergencyStop running_motors)).
Proof.
  assert (H : Forall while_overheating calls_while_overheating)
    by (repeat constructor).
  split; [ exact H | ]. split; [ repeat constructor | ].
  exact (proj1 (proj2
    (emergencyStop_holds_while_overheating ramp_level _ running_motors H))).
Defined.
